(** * aethersync_edgar_ingest: a shallow embedding of the daily EDGAR ingester

    The development follows [src/aethersync_edgar_ingest.py] function by
    function.  Python strings are Rocq strings (sequences of code points
    below 256), Python integers are [Z], a filing record is a Python dict,
    modelled as a finite map from field names to values, and every effect of
    the script (clock, network, files, MongoDB collection, log, the dict
    objects that are mutated in place) is a component of an explicit
    [World] that is threaded through a small state-and-exception monad. *)

From Stdlib Require Import ZArith Lia List String Ascii Decimal DecimalString.
From stdpp Require Import base option list gmap strings.

Local Open Scope string_scope.
Local Open Scope Z_scope.
Local Open Scope list_scope.

(** ** Python string built-ins used by the script *)

Module Py.

(** [str.isspace] on one character, for code points below 256. *)
Definition isspace (c : ascii) : bool :=
  let n := N_of_ascii c in
  (((9 <=? n) && (n <=? 13)) || ((28 <=? n) && (n <=? 32))
   || (n =? 133) || (n =? 160))%N.

Fixpoint lstrip (s : string) : string :=
  match s with
  | EmptyString => EmptyString
  | String c s' => if isspace c then lstrip s' else s
  end.

Fixpoint rstrip (s : string) : string :=
  match s with
  | EmptyString => EmptyString
  | String c s' =>
      match rstrip s' with
      | EmptyString => if isspace c then EmptyString else String c EmptyString
      | r => String c r
      end
  end.

(** [s.strip()] *)
Definition strip (s : string) : string := rstrip (lstrip s).

(** [sep in s] for a one-character [sep]. *)
Fixpoint contains (sep : ascii) (s : string) : bool :=
  match s with
  | EmptyString => false
  | String c s' => Ascii.eqb c sep || contains sep s'
  end.

(** [s.split(sep)] for a one-character [sep]: one more field than there
    are separators, empty fields kept. *)
Fixpoint split (sep : ascii) (s : string) : list string :=
  match s with
  | EmptyString => [EmptyString]
  | String c s' =>
      if Ascii.eqb c sep then EmptyString :: split sep s'
      else match split sep s' with
           | f :: fs => String c f :: fs
           | [] => [String c EmptyString]
           end
  end.

(** [l[-1]] on the result of a split (which is never empty). *)
Definition last_field (l : list string) : string := List.last l EmptyString.

(** [s.replace(old, new)]: every non-overlapping occurrence of [old],
    scanning from the left.  [skip] counts the characters of a match that
    remain to be dropped. *)
Fixpoint replace_from (old new : string) (skip : nat) (s : string) : string :=
  match s with
  | EmptyString => EmptyString
  | String c s' =>
      match skip with
      | S k => replace_from old new k s'
      | O =>
          if String.prefix old s
          then new +:+ replace_from old new (Nat.pred (String.length old)) s'
          else String c (replace_from old new O s')
      end
  end.

Fixpoint intersperse (new : string) (s : string) : string :=
  match s with
  | EmptyString => new
  | String c s' => new +:+ String c (intersperse new s')
  end.

Definition replace (old new s : string) : string :=
  match old with
  | EmptyString => intersperse new s
  | _ => replace_from old new O s
  end.

(** [bool(s)]: a string is truthy when it is not empty. *)
Definition truthy (s : string) : bool :=
  match s with EmptyString => false | _ => true end.

(** [str(n)] for an integer. *)
Definition str_int (z : Z) : string := NilZero.string_of_int (Z.to_int z).

(** Left padding with zeros to a width, as [%m], [%d] and [%Y] do. *)
Fixpoint zeros (n : nat) : string :=
  match n with O => EmptyString | S k => String "0" (zeros k) end.

Definition zfill (width : nat) (s : string) : string :=
  zeros (width - String.length s) +:+ s.

(** [os.path.join(a, b)] on a POSIX system. *)
Definition ends_with_slash (a : string) : bool :=
  match String.get (Nat.pred (String.length a)) a with
  | Some c => Ascii.eqb c "/"
  | None => false
  end.

Definition path_join (a b : string) : string :=
  if String.prefix "/" b then b
  else if (String.length a =? 0)%nat || ends_with_slash a then a +:+ b
  else a +:+ "/" +:+ b.

(** The directory part of a path: everything before its last slash. *)
Fixpoint dirname (p : string) : string :=
  match p with
  | EmptyString => EmptyString
  | String c p' =>
      if contains "/" p' then String c (dirname p')
      else EmptyString
  end.

End Py.

(** ** Values, records and the outside world *)

(** The values that occur in a filing document. *)
Inductive pyval :=
| VStr (s : string)
| VDatetime (t : Z)
| VObjectId (n : N).

#[global] Instance pyval_eq_dec : EqDecision pyval.
Proof. solve_decision. Defined.

(** A Python dict with string keys. *)
Abbreviation dict := (gmap string pyval).

(** [datetime.date]: the three fields of a calendar date. *)
Record date := mk_date { year : Z; month : Z; day : Z }.

(** The ranges [datetime.date] guarantees for its fields. *)
Definition date_in_range (d : date) : Prop :=
  1 <= year d <= 9999 /\ 1 <= month d <= 12 /\ 1 <= day d <= 31.

(** What [requests.get] hands back: a response, or a transport-level
    failure (connection refused, time-out, invalid URL, ...). *)
Record response := mk_response {
  status_code : Z;
  content : list Byte.byte;      (* the raw body, as [iter_content] streams it *)
  text : string;                 (* [r.text], the decoded body *)
  elapsed : Z                    (* how long the exchange took *)
}.

Inductive http_result :=
| Responded (r : response)
| TransportFailure (msg : string) (waited : Z).

(** The exceptions of the script and of the libraries it calls.  The last
    two derive from [BaseException] only. *)
Inductive exn :=
| DownloadFailed (status : Z)      (* Exception("Download failed with status ...") *)
| RequestException (msg : string)  (* requests.exceptions.* *)
| FileNotFoundError (path : string)
| BadGzipFile                      (* gzip.BadGzipFile: not a gzip file, failed check *)
| EOFError                         (* the compressed stream ends too early *)
| ZlibError                        (* zlib.error: invalid compressed data *)
| KeyError (key : string)
| KeyboardInterrupt
| SystemExit.

(** [isinstance(e, Exception)] *)
Definition is_Exception (e : exn) : bool :=
  match e with
  | KeyboardInterrupt | SystemExit => false
  | _ => true
  end.

(** One constructor per message the script logs, with the values its
    f-string interpolates. *)
Inductive log_record :=
| LogDownloading (url : string)            (* info: "Downloading {url}" *)
| LogParsed (n : nat)                      (* info: "Parsed {n} filings" *)
| LogInserted (n : Z)                      (* info: "Inserted {n} new filings into MongoDB" *)
| LogFetchFailed (file_url : pyval)        (* warning: "Failed to fetch filing text: ..." *)
| LogFetchException (file_url : pyval) (e : exn) (* error: "Exception fetching ...: {e}" *)
| LogFatal (e : exn).                      (* error: "Fatal error: {e}", with traceback *)

Inductive level := INFO | WARNING | ERROR.

Definition level_of (r : log_record) : level :=
  match r with
  | LogDownloading _ | LogParsed _ | LogInserted _ => INFO
  | LogFetchFailed _ => WARNING
  | LogFetchException _ _ | LogFatal _ => ERROR
  end.

(** References to dict objects: indices into the heap. *)
Definition loc := nat.

Record World := mk_World {
  today : date;                          (* datetime.date.today() *)
  clock : Z;                             (* datetime.datetime.utcnow() *)
  network : nat -> string -> http_result; (* answer to the n-th request *)
  requests_made : nat;
  files : gmap string (list Byte.byte);
  dirs : gset string;
  tmpname : string;                      (* the name mkdtemp picks *)
  collection : list dict;                (* client[DB_NAME][COLLECTION_NAME] *)
  next_oid : N;                          (* the next ObjectId generated *)
  heap : list dict;                      (* the dict objects of the process *)
  log : list log_record                  (* what the logger has written *)
}.

(** Field updates of the world. *)
Definition set_clock (t : Z) (w : World) : World :=
  mk_World (today w) t (network w) (requests_made w) (files w) (dirs w)
           (tmpname w) (collection w) (next_oid w) (heap w) (log w).
Definition set_requests_made (n : nat) (w : World) : World :=
  mk_World (today w) (clock w) (network w) n (files w) (dirs w)
           (tmpname w) (collection w) (next_oid w) (heap w) (log w).
Definition set_files (f : gmap string (list Byte.byte)) (w : World) : World :=
  mk_World (today w) (clock w) (network w) (requests_made w) f (dirs w)
           (tmpname w) (collection w) (next_oid w) (heap w) (log w).
Definition set_dirs (d : gset string) (w : World) : World :=
  mk_World (today w) (clock w) (network w) (requests_made w) (files w) d
           (tmpname w) (collection w) (next_oid w) (heap w) (log w).
Definition set_collection (c : list dict) (w : World) : World :=
  mk_World (today w) (clock w) (network w) (requests_made w) (files w) (dirs w)
           (tmpname w) c (next_oid w) (heap w) (log w).
Definition set_next_oid (n : N) (w : World) : World :=
  mk_World (today w) (clock w) (network w) (requests_made w) (files w) (dirs w)
           (tmpname w) (collection w) n (heap w) (log w).
Definition set_heap (h : list dict) (w : World) : World :=
  mk_World (today w) (clock w) (network w) (requests_made w) (files w) (dirs w)
           (tmpname w) (collection w) (next_oid w) h (log w).
Definition set_log (l : list log_record) (w : World) : World :=
  mk_World (today w) (clock w) (network w) (requests_made w) (files w) (dirs w)
           (tmpname w) (collection w) (next_oid w) (heap w) l.

(** ** The monad of the script: state passing with exceptions *)

Inductive result (A : Type) :=
| Ok (a : A)
| Raise (e : exn).
Arguments Ok {A} a.
Arguments Raise {A} e.

Definition M (A : Type) : Type := World -> result A * World.

Definition ret {A} (a : A) : M A := fun w => (Ok a, w).

Definition raise {A} (e : exn) : M A := fun w => (Raise e, w).

Definition bind {A B} (c : M A) (k : A -> M B) : M B :=
  fun w =>
    match c w with
    | (Ok a, w') => k a w'
    | (Raise e, w') => (Raise e, w')
    end.

Notation "x <- c ;; k" := (bind c (fun x => k))
  (at level 100, c at next level, right associativity).
Notation "c ;; k" := (bind c (fun _ => k))
  (at level 100, right associativity).

(** [try: body except Exception as e: handler(e)] *)
Definition try_except_Exception {A} (body : M A) (handler : exn -> M A) : M A :=
  fun w =>
    match body w with
    | (Ok a, w') => (Ok a, w')
    | (Raise e, w') => if is_Exception e then handler e w' else (Raise e, w')
    end.

(** ** Primitive effects *)

Definition logger (r : log_record) : M unit :=
  fun w => (Ok tt, set_log (log w ++ [r]) w).

Definition date_today : M date := fun w => (Ok (today w), w).

Definition utcnow : M Z := fun w => (Ok (clock w), w).

(** [requests.get(url, ...)]: the world answers the request, and time
    passes while it does. *)
Definition requests_get (url : string) : M response :=
  fun w =>
    let w' := set_requests_made (S (requests_made w)) w in
    match network w (requests_made w) url with
    | Responded r => (Ok r, set_clock (clock w + elapsed r) w')
    | TransportFailure m dt => (Raise (RequestException m), set_clock (clock w + dt) w')
    end.

(** [open(path, "wb")]: the file is created empty, or truncated; its
    directory has to exist. *)
Definition open_wb (path : string) : M unit :=
  fun w =>
    if bool_decide (Py.dirname path ∈ dirs w)
    then (Ok tt, set_files (<[path := []]> (files w)) w)
    else (Raise (FileNotFoundError path), w).

(** [f.write(chunk)] on a file opened for writing. *)
Definition file_write (path : string) (chunk : list Byte.byte) : M unit :=
  fun w => (Ok tt, set_files (alter (fun old => old ++ chunk) path (files w)) w).

(** Opening a file for reading and taking all of its bytes. *)
Definition open_rb (path : string) : M (list Byte.byte) :=
  fun w =>
    match files w !! path with
    | Some data => (Ok data, w)
    | None => (Raise (FileNotFoundError path), w)
    end.

(** Dict objects: [{...}] allocates, [d[k]] reads, [d[k] = v] writes. *)
Definition deref (w : World) (l : loc) : dict := default ∅ (heap w !! l).

Definition new_dict (d : dict) : M loc :=
  fun w => (Ok (length (heap w)), set_heap (heap w ++ [d]) w).

Definition getitem (l : loc) (k : string) : M pyval :=
  fun w =>
    match deref w l !! k with
    | Some v => (Ok v, w)
    | None => (Raise (KeyError k), w)
    end.

Definition setitem (l : loc) (k : string) (v : pyval) : M unit :=
  fun w => (Ok tt, set_heap (<[l := <[k := v]> (deref w l)]> (heap w)) w).

(** [collection.find_one({key: v})]: the first document whose field [key]
    equals [v], if any. *)
Definition matches (key : string) (v : pyval) (doc : dict) : bool :=
  bool_decide (doc !! key = Some v).

Definition find_one (key : string) (v : pyval) : M (option dict) :=
  fun w => (Ok (List.find (matches key v) (collection w)), w).

(** [collection.insert_one(d)]: a dict without [_id] gets a new ObjectId,
    written into the dict object itself, and the document is appended to
    the collection.  The server is taken to answer every call. *)
Definition insert_one (l : loc) : M unit :=
  fun w =>
    let d := deref w l in
    match d !! "_id" with
    | Some _ => (Ok tt, set_collection (collection w ++ [d]) w)
    | None =>
        let d' := <["_id" := VObjectId (next_oid w)]> d in
        (Ok tt, set_collection (collection w ++ [d'])
                  (set_next_oid (N.succ (next_oid w))
                     (set_heap (<[l := d']> (heap w)) w)))
    end.

(** ** The script *)

Definition BASE_URL : string := "https://www.sec.gov/Archives/edgar/daily-index".

Definition TARGET_FORMS : gset string := {[ "10-K"; "10-Q"; "13F"; "13D"; "4" ]}.

(** [d.strftime('%Y%m%d')], as the C library under CPython renders it on
    Linux: the year as it is, without padding (so on fewer than four digits
    before the year 1000), month and day on two digits. *)
Definition strftime_Ymd (d : date) : string :=
  Py.str_int (year d) +:+ Py.zfill 2 (Py.str_int (month d))
  +:+ Py.zfill 2 (Py.str_int (day d)).

Definition get_today_idx_url : M (string * string) :=
  d <- date_today ;;
  let y := year d in
  let quarter := "QTR" +:+ Py.str_int ((month d - 1) / 3 + 1) in
  let filename := "master." +:+ strftime_Ymd d +:+ ".idx.gz" in
  let url := BASE_URL +:+ "/" +:+ Py.str_int y +:+ "/" +:+ quarter +:+ "/" +:+ filename in
  ret (url, filename).

(** [r.iter_content(n)]: the body in pieces of at most [n] bytes. *)
Fixpoint iter_content_upto (fuel n : nat) (body : list Byte.byte) : list (list Byte.byte) :=
  match fuel, body with
  | O, _ | _, [] => []
  | S fuel', _ => take n body :: iter_content_upto fuel' n (drop n body)
  end.

Definition iter_content (n : nat) (body : list Byte.byte) : list (list Byte.byte) :=
  iter_content_upto (length body) n body.

Fixpoint write_chunks (path : string) (chunks : list (list Byte.byte)) : M unit :=
  match chunks with
  | [] => ret tt
  | chunk :: rest => file_write path chunk ;; write_chunks path rest
  end.

Definition download_gz (url dest_path : string) : M unit :=
  logger (LogDownloading url) ;;
  r <- requests_get url ;;
  if bool_decide (status_code r ≠ 200)
  then raise (DownloadFailed (status_code r))
  else (open_wb dest_path ;;
        write_chunks dest_path (iter_content 1024 (content r))).

(** Lines of a text file, each with its newline, as iterating over the
    file object yields them. *)
Fixpoint readlines (s : string) : list string :=
  match s with
  | EmptyString => []
  | String c s' =>
      if Ascii.eqb c "010" then String c EmptyString :: readlines s'
      else match readlines s' with
           | l :: ls => String c l :: ls
           | [] => [String c EmptyString]
           end
  end.

(** The body of the loop of [parse_idx]: [filings] is the list built so
    far, the result is the list after the line has been looked at. *)
Definition parse_idx_step (filings : list loc) (line : string) : M (list loc) :=
  if Py.contains "|" line then
    let parts := map Py.strip (Py.split "|" (Py.strip line)) in
    match parts with
    | [cik; company; form; date_filed; filename] =>
        if bool_decide (form ∈ TARGET_FORMS) then
          let accession :=
            Py.replace ".txt" EmptyString (Py.last_field (Py.split "/" filename)) in
          l <- new_dict (<["cik" := VStr cik]>
                        (<["company" := VStr company]>
                        (<["form_type" := VStr form]>
                        (<["date_filed" := VStr date_filed]>
                        (<["accession" := VStr accession]>
                        (<["file_url" :=
                             VStr ("https://www.sec.gov/Archives/" +:+ filename)]>
                         ∅)))))) ;;
          ret (filings ++ [l])
        else ret filings
    | _ => ret filings
    end
  else ret filings.

Fixpoint parse_idx_loop (lines : list string) (filings : list loc) : M (list loc) :=
  match lines with
  | [] => ret filings
  | line :: rest => fs <- parse_idx_step filings line ;; parse_idx_loop rest fs
  end.

Definition fetch_filing_text (file_url : pyval) : M (option string) :=
  try_except_Exception
    (r <- match file_url with
          | VStr u => requests_get u
          | _ => raise (RequestException "Invalid URL")
          end ;;
     if bool_decide (status_code r = 200) then ret (Some (text r))
     else (logger (LogFetchFailed file_url) ;; ret None))
    (fun e => logger (LogFetchException file_url e) ;; ret None).

(** [bool(text)] for the result of [fetch_filing_text]: [None] and the
    empty string are falsy. *)
Definition truthy_text (t : option string) : bool :=
  match t with
  | Some s => Py.truthy s
  | None => false
  end.

Definition insert_unique (filing : loc) : M bool :=
  accession <- getitem filing "accession" ;;
  found <- find_one "accession" accession ;;
  match found with
  | Some _ => ret false
  | None =>
      now <- utcnow ;;
      setitem filing "ingested_at" (VDatetime now) ;;
      file_url <- getitem filing "file_url" ;;
      t <- fetch_filing_text file_url ;;
      if truthy_text t then
        (setitem filing "raw_text" (VStr (default EmptyString t)) ;;
         insert_one filing ;;
         ret true)
      else ret false
  end.

(** The loop of [main] over the parsed filings. *)
Fixpoint insert_all (filings : list loc) (new_count : Z) : M Z :=
  match filings with
  | [] => ret new_count
  | filing :: rest =>
      b <- insert_unique filing ;;
      insert_all rest (if b then new_count + 1 else new_count)
  end.

(** [with tempfile.TemporaryDirectory() as tmpdir: body]: the directory is
    created, and removed with everything in it on every way out. *)
Definition cleanup (tmpdir : string) (w : World) : World :=
  set_dirs (dirs w ∖ {[ tmpdir ]})
    (set_files (filter (fun kv => Py.dirname kv.1 ≠ tmpdir) (files w)) w).

Definition with_TemporaryDirectory {A} (body : string -> M A) : M A :=
  fun w =>
    let tmpdir := tmpname w in
    match body tmpdir (set_dirs ({[ tmpdir ]} ∪ dirs w) w) with
    | (r, w') => (r, cleanup tmpdir w')
    end.

(** How reading a gzip file to its end can go, and the exception each
    failure raises: a file that is not gzip data or fails its final check
    raises [gzip.BadGzipFile], a stream that stops before its end marker
    raises [EOFError], invalid compressed data raise [zlib.error]. *)
Inductive gzip_outcome :=
| GzComplete
| GzBadFile
| GzTruncated
| GzCorrupt.

Definition gzip_error (o : gzip_outcome) : option exn :=
  match o with
  | GzComplete => None
  | GzBadFile => Some BadGzipFile
  | GzTruncated => Some EOFError
  | GzCorrupt => Some ZlibError
  end.

Section Libraries.

(** What the script takes from [gzip] and from the text layer of [open]:
    the bytes [gzip] delivers for a compressed file before it stops, with
    how it stops, and the text that a file's bytes decode to when
    undecodable sequences are dropped and line ends are translated to
    newlines. *)
Variable gunzip : list Byte.byte -> list Byte.byte * gzip_outcome.
Variable decode_ignore : list Byte.byte -> string.

(** [gzip.open] opens the source at once but reads it only when
    [copyfileobj] asks, after the destination has been created. *)
Definition decompress_gz (src_path dest_path : string) : M unit :=
  open_rb src_path ;;
  open_wb dest_path ;;
  data <- open_rb src_path ;;
  file_write dest_path (gunzip data).1 ;;
  match gzip_error (gunzip data).2 with
  | None => ret tt
  | Some e => raise e
  end.

Definition parse_idx (path : string) : M (list loc) :=
  data <- open_rb path ;;
  parse_idx_loop (readlines (decode_ignore data)) [].

(** The body of the [try] of [main]. *)
Definition pipeline : M unit :=
  located <- get_today_idx_url ;;
  let '(url, filename) := located in
  with_TemporaryDirectory (fun tmpdir =>
    let gz_path := Py.path_join tmpdir filename in
    let idx_path := Py.replace ".gz" EmptyString gz_path in
    download_gz url gz_path ;;
    decompress_gz gz_path idx_path ;;
    filings <- parse_idx idx_path ;;
    logger (LogParsed (length filings)) ;;
    new_count <- insert_all filings 0 ;;
    logger (LogInserted new_count)).

Definition main : M unit :=
  try_except_Exception pipeline (fun e => logger (LogFatal e)).

End Libraries.

(** ** Notions used to state the properties *)

(** Decimal digits and the number a string of digits denotes. *)
Definition digit_value (c : ascii) : Z := Z.of_N (N_of_ascii c) - 48.

Definition is_digit (c : ascii) : bool :=
  (0 <=? digit_value c) && (digit_value c <=? 9).

Fixpoint all_digits (s : string) : bool :=
  match s with
  | EmptyString => true
  | String c s' => is_digit c && all_digits s'
  end.

Fixpoint decimal_value_from (acc : Z) (s : string) : Z :=
  match s with
  | EmptyString => acc
  | String c s' => decimal_value_from (acc * 10 + digit_value c) s'
  end.

Definition decimal_value (s : string) : Z := decimal_value_from 0 s.

(** A number rendered on [width] digits reads back as itself. *)
Definition padded_ok (width : nat) (z : Z) : bool :=
  let s := Py.zfill width (Py.str_int z) in
  (String.length s =? width)%nat && all_digits s && (decimal_value s =? z).

(** A number rendered without padding is made of digits and reads back as
    itself; from 1000 on it has four of them. *)
Definition rendered_ok (z : Z) : bool :=
  let s := Py.str_int z in
  all_digits s && (decimal_value s =? z)
  && ((z <? 1000) || (String.length s =? 4)%nat).

(** [s.removesuffix(suffix)]: [s] without [suffix] when it ends with it. *)
Fixpoint removesuffix (suffix s : string) : string :=
  if String.eqb s suffix then EmptyString
  else match s with
       | EmptyString => EmptyString
       | String c s' => String c (removesuffix suffix s')
       end.

(** What the next text fetch of [file_url] will give in world [w], read off
    the answer of the network: the body on status 200, nothing otherwise;
    and how long that exchange takes. *)
Definition fetched_text (file_url : pyval) (w : World) : option string :=
  match file_url with
  | VStr u =>
      match network w (requests_made w) u with
      | Responded r => if bool_decide (status_code r = 200) then Some (text r) else None
      | TransportFailure _ _ => None
      end
  | _ => None
  end.

Definition fetch_duration (file_url : pyval) (w : World) : Z :=
  match file_url with
  | VStr u =>
      match network w (requests_made w) u with
      | Responded r => elapsed r
      | TransportFailure _ dt => dt
      end
  | _ => 0
  end.

(** The record at [l] with its ingestion timestamp, and the document that
    is inserted once the text [t] has been attached. *)
Definition stamped (w : World) (l : loc) : dict :=
  <["ingested_at" := VDatetime (clock w)]> (deref w l).

Definition with_id (w : World) (d : dict) : dict :=
  match d !! "_id" with
  | Some _ => d
  | None => <["_id" := VObjectId (next_oid w)]> d
  end.

Definition enriched (w : World) (l : loc) (t : string) : dict :=
  with_id w (<["raw_text" := VStr t]> (stamped w l)).

(** A document with accession [acc] is in the collection. *)
Definition present (acc : pyval) (c : list dict) : Prop :=
  exists doc, doc ∈ c /\ doc !! "accession" = Some acc.

(** How many documents of a list carry accession [acc]. *)
Definition count_accession (acc : pyval) (c : list dict) : nat :=
  length (List.filter (matches "accession" acc) c).

(** The documents [added] to a collection hold each accession at most once,
    and none that the collection held [before]. *)
Definition at_most_once (before added : list dict) : Prop :=
  forall acc, (count_accession acc added <= 1)%nat
              /\ (present acc before -> count_accession acc added = 0%nat).

Definition grows (c c' : list dict) : Prop :=
  exists added, c' = c ++ added /\ at_most_once c added.

(** A computation that only ever extends the collection in that way, and
    whose exceptions all derive from [Exception]. *)
Definition well_behaved {A} (m : M A) : Prop :=
  forall w, grows (collection w) (collection (m w).2)
            /\ forall e, (m w).1 = Raise e -> is_Exception e = true.

(** ** Sample data: the index of the specification's scenario *)

Definition newline : string := String "010" EmptyString.

Definition acme_line : string :=
  "0001|Acme Co|10-K|2024-01-05|edgar/data/1/acme-10k.txt" +:+ newline.

Definition beta_line : string :=
  "0002|Beta Inc|8-K|2024-01-05|edgar/data/2/beta-8k.txt" +:+ newline.

(** A line whose file name holds the suffix twice. *)
Definition odd_line : string :=
  "0001|Acme Co|10-K|2024-01-05|edgar/data/1/acme.txt.v2.txt" +:+ newline.

Definition acme_url : string :=
  "https://www.sec.gov/Archives/edgar/data/1/acme-10k.txt".

Definition index_url : string :=
  "https://www.sec.gov/Archives/edgar/daily-index/2024/QTR1/master.20240105.idx.gz".

Definition acme_record : dict :=
  <["cik" := VStr "0001"]>
  (<["company" := VStr "Acme Co"]>
  (<["form_type" := VStr "10-K"]>
  (<["date_filed" := VStr "2024-01-05"]>
  (<["accession" := VStr "acme-10k"]>
  (<["file_url" := VStr acme_url]> ∅))))).

(** The same record, already carrying a text. *)
Definition archived_record : dict := <["raw_text" := VStr "old text"]> acme_record.

(** A stored document with the accession of the Acme filing. *)
Definition seen_doc : dict := <["accession" := VStr "acme-10k"]> ∅.

(** Networks: one that answers everything with a given status and body,
    one that cannot be reached, and one that serves the index first and
    the Acme filing afterwards. *)
Definition answering (status : Z) (body : string) : nat -> string -> http_result :=
  fun _ _ => Responded (mk_response status [] body 7).

Definition unreachable : nat -> string -> http_result :=
  fun _ _ => TransportFailure "Connection refused" 3.

Definition index_bytes : list Byte.byte := list_byte_of_string (acme_line +:+ beta_line).

Definition edgar (index : list Byte.byte) : nat -> string -> http_result :=
  fun n url =>
    match n with
    | O => Responded (mk_response 200 index EmptyString 5)
    | _ => if String.eqb url acme_url
           then Responded (mk_response 200 [] "ANNUAL REPORT" 7)
           else Responded (mk_response 404 [] "Not Found" 1)
    end.

Definition world_with (net : nat -> string -> http_result)
    (store objects : list dict) : World :=
  mk_World (mk_date 2024 1 5) 1000 net 0%nat ∅ {[ "/tmp" ]} "/tmp/tmpab12cd34"
           store 1%N objects [].

(** An archive that is stored as it is, and ASCII text. *)
Definition stored (data : list Byte.byte) : list Byte.byte * gzip_outcome :=
  (data, GzComplete).

Definition ascii_text (data : list Byte.byte) : string := string_of_list_byte data.


Definition first_run : World := world_with (edgar index_bytes) [] [].

Definition second_run : World :=
  set_collection (collection (main stored ascii_text first_run).2) first_run.

Definition twice_listed : World :=
  world_with (edgar (list_byte_of_string (acme_line +:+ acme_line))) [] [].

Ltac unfold_effects :=
  unfold bind, ret, raise, try_except_Exception, logger, date_today, utcnow,
    requests_get, open_wb, file_write, open_rb, new_dict, getitem, setitem,
    find_one in *.

(** ** Notions used to state further properties *)

(** The record a line of the index gives, if it gives one: the dict the
    loop body of [parse_idx] builds. *)
Definition record_of_line (line : string) : option dict :=
  if Py.contains "|" line then
    match map Py.strip (Py.split "|" (Py.strip line)) with
    | [cik; company; form; date_filed; filename] =>
        if bool_decide (form ∈ TARGET_FORMS) then
          Some (<["cik" := VStr cik]>
               (<["company" := VStr company]>
               (<["form_type" := VStr form]>
               (<["date_filed" := VStr date_filed]>
               (<["accession" :=
                    VStr (Py.replace ".txt" EmptyString
                            (Py.last_field (Py.split "/" filename)))]>
               (<["file_url" :=
                    VStr ("https://www.sec.gov/Archives/" +:+ filename)]>
                ∅))))))
        else None
    | _ => None
    end
  else None.

(** A field without blanks at its ends. *)
Definition trimmed (f : string) : Prop := Py.lstrip f = f /\ Py.rstrip f = f.

(** A line of the index as EDGAR writes it. *)
Definition index_line (cik company form date_filed filename : string) : string :=
  cik +:+ String "|" (company +:+ String "|" (form +:+ String "|"
    (date_filed +:+ String "|" (filename +:+ newline)))).

(** A world in which the index of the scenario has been extracted. *)
Definition indexed : World :=
  set_files {[ "/tmp/master.idx" := index_bytes ]} first_run.



(** ** Strings and digits *)


Lemma length_append (a b : string) :
  String.length (a +:+ b) = (String.length a + String.length b)%nat.
Proof. induction a as [|x a IH]; [done | exact (f_equal S IH)]. Qed.

Lemma all_digits_append (a b : string) :
  all_digits (a +:+ b) = all_digits a && all_digits b.
Proof.
  induction a as [|x a IH]; [done |].
  change (is_digit x && all_digits (a +:+ b) = is_digit x && all_digits a && all_digits b).
  by rewrite IH, andb_assoc.
Qed.

Lemma decimal_value_from_append (a b : string) (acc : Z) :
  decimal_value_from acc (a +:+ b) = decimal_value_from (decimal_value_from acc a) b.
Proof. revert acc; induction a as [|x a IH]; intros acc; [done | apply IH]. Qed.

Lemma decimal_value_from_shift (s : string) (acc : Z) :
  decimal_value_from acc s = acc * 10 ^ Z.of_nat (String.length s) + decimal_value s.
Proof.
  unfold decimal_value. revert acc.
  induction s as [|c s IH]; intros acc.
  - simpl. lia.
  - cbn [decimal_value_from String.length]. rewrite IH, (IH (0 * 10 + digit_value c)).
    rewrite Nat2Z.inj_succ, Z.pow_succ_r by lia. ring.
Qed.

(** A check that ran over a whole range holds at each of its numbers. *)
Lemma padded_ok_range (width : nat) (lo n : nat) (z : Z) :
  forallb (fun k => padded_ok width (Z.of_nat k)) (seq lo n) = true ->
  Z.of_nat lo <= z < Z.of_nat (lo + n) ->
  padded_ok width z = true.
Proof.
  intros Hall Hz. rewrite forallb_forall in Hall.
  replace z with (Z.of_nat (Z.to_nat z)) by lia.
  apply Hall, in_seq. lia.
Qed.

(** Month and day are rendered on two digits and read back as
    themselves; so does the year, on as many digits as it has. *)
Lemma month_day_padded (z : Z) : 1 <= z <= 31 -> padded_ok 2 z = true.
Proof.
  intros H. apply (padded_ok_range 2 1 31); [by vm_compute | lia].
Qed.

Lemma padded_ok_spec (width : nat) (z : Z) :
  padded_ok width z = true ->
  String.length (Py.zfill width (Py.str_int z)) = width
  /\ all_digits (Py.zfill width (Py.str_int z)) = true
  /\ decimal_value (Py.zfill width (Py.str_int z)) = z.
Proof.
  unfold padded_ok. cbv zeta. rewrite !andb_true_iff, Nat.eqb_eq, Z.eqb_eq. tauto.
Qed.

Lemma year_rendered (y : Z) :
  1 <= y <= 9999 ->
  all_digits (Py.str_int y) = true
  /\ decimal_value (Py.str_int y) = y
  /\ (1000 <= y -> String.length (Py.str_int y) = 4%nat).
Proof.
  intros H.
  assert (Hall : forallb (fun k => rendered_ok (Z.of_nat k)) (seq 1 (Z.to_nat 9999)) = true)
    by (by vm_compute).
  rewrite forallb_forall in Hall.
  assert (Hy : rendered_ok y = true).
  { replace y with (Z.of_nat (Z.to_nat y)) by lia. apply Hall, in_seq. lia. }
  unfold rendered_ok in Hy. cbv zeta in Hy.
  rewrite !andb_true_iff, orb_true_iff, Z.eqb_eq, Z.ltb_lt, Nat.eqb_eq in Hy.
  destruct Hy as [[Hd Hv] Hl]. split; [done |]. split; [done |].
  intros Hk. destruct Hl as [Hl | Hl]; [lia | done].
Qed.

(** [%Y%m%d] gives digits that spell year, month and day; eight of them
    from the year 1000 on. *)
Lemma strftime_Ymd_digits (d : date) :
  date_in_range d ->
  all_digits (strftime_Ymd d) = true
  /\ decimal_value (strftime_Ymd d) = year d * 10000 + month d * 100 + day d
  /\ (1000 <= year d -> String.length (strftime_Ymd d) = 8%nat).
Proof.
  intros (Hy & Hm & Hd). unfold strftime_Ymd.
  destruct (year_rendered (year d) Hy) as (Ay & Vy & Ly).
  destruct (padded_ok_spec 2 (month d)) as (Lm & Am & Vm); [apply month_day_padded; lia |].
  destruct (padded_ok_spec 2 (day d)) as (Ld & Ad & Vd); [by apply month_day_padded |].
  rewrite !length_append, !all_digits_append, Lm, Ld, Ay, Am, Ad.
  split; [done |]. split.
  - unfold decimal_value at 1. rewrite !decimal_value_from_append.
    rewrite (decimal_value_from_shift _ (decimal_value_from _ _)), Ld, Vd.
    rewrite decimal_value_from_shift, Lm, Vm.
    fold (decimal_value (Py.str_int (year d))). rewrite Vy.
    change (10 ^ Z.of_nat 2) with 100. lia.
  - intros Hk. by rewrite (Ly Hk).
Qed.

(** A line without the delimiter has one field, stripped or not. *)
Lemma split_without_separator (sep : ascii) (s : string) :
  Py.contains sep s = false -> Py.split sep s = [s].
Proof.
  induction s as [|c s IH]; [done |].
  cbn [Py.contains Py.split]. intros H. apply orb_false_iff in H as [Hc Hs].
  by rewrite Hc, IH.
Qed.

Lemma contains_lstrip (sep : ascii) (s : string) :
  Py.contains sep s = false -> Py.contains sep (Py.lstrip s) = false.
Proof.
  induction s as [|c s IH]; [done |].
  cbn [Py.lstrip]. destruct (Py.isspace c); [| done].
  cbn [Py.contains]. intros H. apply orb_false_iff in H as [_ Hs]. auto.
Qed.

Lemma contains_rstrip (sep : ascii) (s : string) :
  Py.contains sep s = false -> Py.contains sep (Py.rstrip s) = false.
Proof.
  induction s as [|c s IH]; [done |].
  cbn [Py.contains Py.rstrip]. intros H. apply orb_false_iff in H as [Hc Hs].
  specialize (IH Hs). destruct (Py.rstrip s) as [|c' r].
  - destruct (Py.isspace c); [done |]. cbn [Py.contains]. by rewrite Hc.
  - cbn [Py.contains] in *. by rewrite Hc, IH.
Qed.

Lemma fields_without_separator (line : string) :
  Py.contains "|" line = false ->
  length (Py.split "|" (Py.strip line)) = 1%nat.
Proof.
  intros H. unfold Py.strip.
  rewrite split_without_separator; [done |].
  by apply contains_rstrip, contains_lstrip.
Qed.

(** ** The index locator *)




(** ** The parser *)

(** Parsing a list of lines is parsing a first part and then the rest. *)
Lemma parse_idx_loop_app (before after : list string) (filings : list loc) (w : World) :
  parse_idx_loop (before ++ after) filings w =
  (fs <- parse_idx_loop before filings ;; parse_idx_loop after fs) w.
Proof.
  revert filings w. induction before as [|line rest IH]; intros filings w; [done |].
  cbn [app parse_idx_loop]. unfold bind.
  destruct (parse_idx_step filings line w) as [[fs|e] w1]; [| done].
  rewrite IH. done.
Qed.

(** What the parser does with a line of five fields whose form type is
    accepted: one new record, appended to the list, whose accession is the
    last path segment of the file name with every occurrence of [.txt]
    removed. *)
Lemma parse_idx_step_accepts (filings : list loc) (line : string) (w : World)
    (cik company form date_filed filename : string) :
  map Py.strip (Py.split "|" (Py.strip line)) = [cik; company; form; date_filed; filename] ->
  form ∈ TARGET_FORMS ->
  exists d,
    parse_idx_step filings line w
    = (Ok (filings ++ [length (heap w)]), set_heap (heap w ++ [d]) w)
    /\ d !! "accession"
       = Some (VStr (Py.replace ".txt" EmptyString (Py.last_field (Py.split "/" filename))))
    /\ d !! "file_url" = Some (VStr ("https://www.sec.gov/Archives/" +:+ filename))
    /\ d !! "cik" = Some (VStr cik)
    /\ d !! "company" = Some (VStr company)
    /\ d !! "form_type" = Some (VStr form)
    /\ d !! "date_filed" = Some (VStr date_filed).
Proof.
  intros Hparts Hform. unfold parse_idx_step.
  destruct (Py.contains "|" line) eqn:Hc.
  - rewrite Hparts, bool_decide_eq_true_2 by done.
    unfold bind, new_dict, ret. eexists. split; [reflexivity |].
    by simplify_map_eq.
  - apply fields_without_separator in Hc.
    rewrite <- (length_map Py.strip), Hparts in Hc. done.
Qed.

(** C4.  A line that has no pipe, or that does not split into exactly five
    fields, or whose form-type field is not in the accepted set, makes the
    parser emit nothing and raise nothing: the loop body returns the list it
    was given in an unchanged world, and the result of parsing a whole file
    is the same with or without that line. *)
Theorem parse_idx_step_skips (line : string) :
  Py.contains "|" line = false
  \/ length (Py.split "|" (Py.strip line)) <> 5%nat
  \/ (exists form,
        map Py.strip (Py.split "|" (Py.strip line)) !! 2%nat = Some form
        /\ form ∉ TARGET_FORMS) ->
  (forall filings w, parse_idx_step filings line w = (Ok filings, w))
  /\ (forall before after filings w,
        parse_idx_loop (before ++ line :: after) filings w =
        parse_idx_loop (before ++ after) filings w).
Proof.
  intros Hline.
  assert (Hstep : forall filings w, parse_idx_step filings line w = (Ok filings, w)).
  { intros filings w. unfold parse_idx_step.
    destruct (Py.contains "|" line) eqn:Hc; [| done].
    destruct Hline as [Hn | [Hlen | (form & Hform & Hnot)]]; [done | |].
    - rewrite <- (length_map Py.strip) in Hlen.
      by destruct (map Py.strip _) as [|? [|? [|? [|? [|? [|]]]]]].
    - destruct (map Py.strip _) as [|? [|? [|f [|? [|? [|]]]]]]; try done.
      assert (f = form) as -> by (simpl in Hform; congruence).
      by rewrite bool_decide_eq_false_2. }
  split; [done |].
  intros before after filings w.
  rewrite !parse_idx_loop_app. unfold bind.
  destruct (parse_idx_loop before filings w) as [[fs|e] w1]; [| done].
  cbn [parse_idx_loop]. unfold bind. by rewrite Hstep.
Qed.

Lemma parse_idx_step_skips_witness :
  parse_idx_step [] beta_line first_run = (Ok [], first_run).
Proof.
  refine (proj1 (parse_idx_step_skips beta_line _) [] first_run).
  right. right. exists "8-K". split; [reflexivity |].
  apply (bool_decide_eq_false ("8-K" ∈ TARGET_FORMS)). by vm_compute.
Defined.

(** C3, at a line on which the code and the claim part.  The line splits
    into five trimmed fields with the accepted form type 10-K; the last path
    segment of its file name is [acme.txt.v2.txt], which without its trailing
    suffix is [acme.txt.v2]; the record the parser emits has the accession
    [acme.v2], because [replace] removes the inner occurrence as well. *)
Theorem parse_idx_step_inner_suffix (w : World) :
  map Py.strip (Py.split "|" (Py.strip odd_line))
  = ["0001"; "Acme Co"; "10-K"; "2024-01-05"; "edgar/data/1/acme.txt.v2.txt"]
  /\ "10-K" ∈ TARGET_FORMS
  /\ removesuffix ".txt" (Py.last_field (Py.split "/" "edgar/data/1/acme.txt.v2.txt"))
     = "acme.txt.v2"
  /\ exists d,
       parse_idx_step [] odd_line w = (Ok [length (heap w)], set_heap (heap w ++ [d]) w)
       /\ d !! "accession" = Some (VStr "acme.v2").
Proof.
  split; [reflexivity |].
  split; [apply (bool_decide_eq_true ("10-K" ∈ TARGET_FORMS)); by vm_compute |].
  split; [reflexivity |].
  destruct (parse_idx_step_accepts [] odd_line w "0001" "Acme Co" "10-K" "2024-01-05"
              "edgar/data/1/acme.txt.v2.txt") as (d & Hrun & Hacc & _).
  - reflexivity.
  - apply (bool_decide_eq_true ("10-K" ∈ TARGET_FORMS)). by vm_compute.
  - exists d. split; [done |]. rewrite Hacc. reflexivity.
Qed.

(** ** The fetcher *)

(** The text fetch always returns, with what the network's answer
    determines, and touches neither the objects nor the collection. *)
Lemma fetch_filing_text_run (file_url : pyval) (w : World) :
  exists w', fetch_filing_text file_url w = (Ok (fetched_text file_url w), w')
    /\ heap w' = heap w /\ collection w' = collection w
    /\ next_oid w' = next_oid w
    /\ clock w' = clock w + fetch_duration file_url w.
Proof.
  unfold fetch_filing_text, fetched_text, fetch_duration. unfold_effects.
  destruct file_url as [u| |]; simpl; try (eexists; repeat split; simpl; lia).
  destruct (network w (requests_made w) u) as [r|m dt]; simpl;
    [case_bool_decide; simpl |]; by eexists.
Qed.

(** C7.  For every URL the text fetch returns normally: the body of the
    response when the status is 200, and [None] when the status is anything
    else or when the transport fails; no exception leaves it. *)
Theorem fetch_filing_text_never_raises (file_url : pyval) (w : World) :
  (exists t w', fetch_filing_text file_url w = (Ok t, w'))
  /\ (forall u r, file_url = VStr u ->
        network w (requests_made w) u = Responded r ->
        status_code r = 200 ->
        (fetch_filing_text file_url w).1 = Ok (Some (text r)))
  /\ (forall u r, file_url = VStr u ->
        network w (requests_made w) u = Responded r ->
        status_code r <> 200 ->
        (fetch_filing_text file_url w).1 = Ok None)
  /\ (forall u m dt, file_url = VStr u ->
        network w (requests_made w) u = TransportFailure m dt ->
        (fetch_filing_text file_url w).1 = Ok None).
Proof.
  destruct (fetch_filing_text_run file_url w) as (w' & Hrun & _).
  rewrite Hrun. cbn [fst]. unfold fetched_text.
  split; [eauto |]. split; [| split].
  - intros u r -> -> Hs. by rewrite bool_decide_eq_true_2.
  - intros u r -> -> Hs. by rewrite bool_decide_eq_false_2.
  - by intros u m dt -> ->.
Qed.

Lemma fetch_filing_text_never_raises_witness :
  (fetch_filing_text (VStr acme_url) (world_with unreachable [] [])).1 = Ok None.
Proof.
  destruct (fetch_filing_text_never_raises (VStr acme_url) (world_with unreachable [] []))
    as (_ & _ & _ & H).
  apply (H acme_url "Connection refused" 3); reflexivity.
Defined.

(** Writing chunks appends their concatenation, and cannot fail. *)
Lemma write_chunks_run (path : string) (chunks : list (list Byte.byte)) (w : World) :
  write_chunks path chunks w =
  (Ok tt, match chunks with
          | [] => w
          | _ => set_files (alter (fun old => old ++ concat chunks) path (files w)) w
          end).
Proof.
  revert w. induction chunks as [|c cs IH]; intros w; [done |].
  cbn [write_chunks]. unfold bind, file_write. rewrite IH.
  destruct cs as [|c' cs']; simpl.
  - by rewrite app_nil_r.
  - f_equal. unfold set_files. simpl. f_equal.
    rewrite alter_alter_eq. apply alter_ext. intros old _. simpl.
    by rewrite <- app_assoc.
Qed.


(** The three ways a download can go. *)
Lemma download_gz_run (url dest_path : string) (w : World) :
  download_gz url dest_path w =
  let w1 := set_requests_made (S (requests_made w))
              (set_log (log w ++ [LogDownloading url]) w) in
  match network w (requests_made w) url with
  | TransportFailure m dt =>
      (Raise (RequestException m), set_clock (clock w + dt) w1)
  | Responded r =>
      if bool_decide (status_code r ≠ 200)
      then (Raise (DownloadFailed (status_code r)), set_clock (clock w + elapsed r) w1)
      else (open_wb dest_path ;;
            write_chunks dest_path (iter_content 1024 (content r)))
             (set_clock (clock w + elapsed r) w1)
  end.
Proof.
  unfold download_gz. unfold bind at 1. unfold logger at 1.
  unfold bind at 1. unfold requests_get. cbn [network requests_made clock set_log].
  destruct (network w (requests_made w) url) as [r|m dt]; [| done].
  by case_bool_decide.
Qed.

(** Writing the body fails only when the file cannot be opened, before
    anything is written. *)
Lemma open_then_write_raise (path : string) (chunks : list (list Byte.byte))
    (w w' : World) (e : exn) :
  (open_wb path ;; write_chunks path chunks) w = (Raise e, w') ->
  e = FileNotFoundError path /\ w' = w.
Proof.
  unfold bind, open_wb. case_bool_decide.
  - by rewrite write_chunks_run.
  - by intros [= <- <-].
Qed.


(** ** The store writer *)

(** A location at which a field can be read is a location of the heap. *)
Lemma deref_valid (w : World) (l : loc) (k : string) (v : pyval) :
  deref w l !! k = Some v -> (l < length (heap w))%nat.
Proof.
  unfold deref. intros H. destruct (heap w !! l) as [d|] eqn:E.
  - by apply lookup_lt_Some in E.
  - simpl in H. by rewrite lookup_empty in H.
Qed.

Lemma deref_set_heap (w : World) (l : loc) (d : dict) :
  (l < length (heap w))%nat ->
  deref (set_heap (<[l := d]> (heap w)) w) l = d.
Proof. intros H. unfold deref. simpl. by rewrite list_lookup_insert_eq. Qed.

(** What [find_one] returns, in terms of the documents in the collection. *)
Lemma find_accession_Some (acc : pyval) (c : list dict) (doc : dict) :
  List.find (matches "accession" acc) c = Some doc -> present acc c.
Proof.
  intros H. apply find_some in H as [Hin Hm].
  exists doc. split; [by apply list_elem_of_In |].
  unfold matches in Hm. by apply bool_decide_eq_true in Hm.
Qed.

Lemma find_accession_None (acc : pyval) (c : list dict) :
  List.find (matches "accession" acc) c = None <-> ~ present acc c.
Proof.
  split.
  - intros H (doc & Hin & Hacc).
    apply list_elem_of_In in Hin.
    pose proof (find_none _ _ H doc Hin) as Hm.
    unfold matches in Hm. apply bool_decide_eq_false in Hm. done.
  - intros H. destruct (List.find _ c) as [doc|] eqn:E; [|done].
    exfalso. eauto using find_accession_Some.
Qed.

(** The path of a known accession: nothing happens. *)
Lemma insert_unique_present (l : loc) (w : World) (acc : pyval) (doc : dict) :
  deref w l !! "accession" = Some acc ->
  List.find (matches "accession" acc) (collection w) = Some doc ->
  insert_unique l w = (Ok false, w).
Proof.
  intros Hacc Hfind. unfold insert_unique. unfold_effects.
  by rewrite Hacc, Hfind.
Qed.

(** The path of a new accession, up to the text fetch: the record has
    been stamped with the time at entry. *)
Lemma insert_unique_absent_unfold (l : loc) (w : World) (acc : pyval) :
  deref w l !! "accession" = Some acc ->
  List.find (matches "accession" acc) (collection w) = None ->
  insert_unique l w =
  (file_url <- getitem l "file_url" ;;
   t <- fetch_filing_text file_url ;;
   if truthy_text t then
     (setitem l "raw_text" (VStr (default EmptyString t)) ;;
      insert_one l ;;
      ret true)
   else ret false) (set_heap (<[l := stamped w l]> (heap w)) w).
Proof.
  intros Hacc Hfind.
  unfold insert_unique.
  unfold bind at 1. unfold getitem at 1. rewrite Hacc.
  unfold bind at 1. unfold find_one at 1. rewrite Hfind.
  unfold bind at 1. unfold utcnow at 1.
  unfold bind at 1. unfold setitem at 1.
  done.
Qed.

Lemma getitem_stamped (l : loc) (w : World) (k : string) (acc : pyval) :
  deref w l !! "accession" = Some acc ->
  k <> "ingested_at" ->
  getitem l k (set_heap (<[l := stamped w l]> (heap w)) w) =
  match deref w l !! k with
  | Some v => (Ok v, set_heap (<[l := stamped w l]> (heap w)) w)
  | None => (Raise (KeyError k), set_heap (<[l := stamped w l]> (heap w)) w)
  end.
Proof.
  intros Hacc Hk. unfold getitem.
  rewrite deref_set_heap by eauto using deref_valid.
  unfold stamped at 1 3. by rewrite lookup_insert_ne.
Qed.

Lemma stamped_lookup (w : World) (l : loc) (k : string) :
  stamped w l !! k =
  if decide (k = "ingested_at") then Some (VDatetime (clock w)) else deref w l !! k.
Proof.
  unfold stamped. case_decide as E.
  - subst k. by rewrite lookup_insert_eq.
  - by rewrite lookup_insert_ne.
Qed.

Lemma enriched_lookup (w : World) (l : loc) (t : string) (k : string) (v : pyval) :
  stamped w l !! k = Some v -> k <> "raw_text" -> enriched w l t !! k = Some v.
Proof.
  intros Hk Hne. unfold enriched, with_id.
  set (d2 := <["raw_text" := VStr t]> (stamped w l)).
  assert (H2 : d2 !! k = Some v) by (subst d2; by rewrite lookup_insert_ne).
  destruct (d2 !! "_id") as [i|] eqn:Hid; [done |].
  rewrite lookup_insert_ne; [done |]. intros <-. congruence.
Qed.


(** The path of a new accession, to its end: the result is the truthiness
    of the fetched text; the record keeps its stamp and, when the text is
    truthy, is enriched and appended to the collection. *)
Lemma insert_unique_absent (l : loc) (w : World) (acc file_url : pyval) :
  deref w l !! "accession" = Some acc ->
  List.find (matches "accession" acc) (collection w) = None ->
  deref w l !! "file_url" = Some file_url ->
  let t := fetched_text file_url w in
  exists w',
    insert_unique l w = (Ok (truthy_text t), w')
    /\ heap w' = <[l := if truthy_text t then enriched w l (default EmptyString t)
                        else stamped w l]> (heap w)
    /\ collection w' = collection w ++
                       (if truthy_text t then [enriched w l (default EmptyString t)] else [])
    /\ clock w' = clock w + fetch_duration file_url w.
Proof.
  intros Hacc Hfind Hurl t.
  pose proof (deref_valid _ _ _ _ Hacc) as Hl.
  rewrite (insert_unique_absent_unfold l w acc) by done.
  unfold bind at 1. rewrite (getitem_stamped l w "file_url" acc) by done.
  rewrite Hurl.
  set (w1 := set_heap _ w).
  unfold bind at 1.
  destruct (fetch_filing_text_run file_url w1) as (w2 & -> & Hh & Hc & Ho & Hk).
  change (fetched_text file_url w1) with t.
  change (clock w1 + fetch_duration file_url w1)
    with (clock w + fetch_duration file_url w) in Hk.
  destruct (truthy_text t) eqn:Ht.
  - unfold bind, setitem, insert_one, ret.
    cbn [heap collection next_oid set_heap set_collection set_next_oid].
    assert (Hl2 : (l < length (heap w2))%nat)
      by (rewrite Hh; subst w1; simpl; by rewrite length_insert).
    assert (Hd2 : deref w2 l = stamped w l)
      by (unfold deref; rewrite Hh; subst w1; simpl; by rewrite list_lookup_insert_eq).
    rewrite Hd2.
    unfold enriched. set (d2 := <["raw_text" := _]> (stamped w l)).
    rewrite deref_set_heap by done.
    unfold with_id. rewrite Ho.
    destruct (d2 !! "_id") as [i|] eqn:Hid.
    + eexists. split; [reflexivity |]. subst w1; simpl.
      rewrite Hh, Hc, Hk. simpl. by rewrite list_insert_insert_eq.
    + eexists. split; [reflexivity |]. subst w1; simpl.
      rewrite Hh, Hc, Hk. simpl. by rewrite !list_insert_insert_eq.
  - unfold ret. eexists. split; [reflexivity |]. rewrite Hh, Hc, Hk. simpl.
    by rewrite app_nil_r.
Qed.




(** C10.  For every record that is not yet in the collection and whose text
    fetch is answered with status 200 and an empty string, [insert_unique]
    returns false and the collection is unchanged. *)
Theorem insert_unique_empty_body (l : loc) (w : World) (acc : pyval) (u : string)
    (r : response) :
  deref w l !! "accession" = Some acc ->
  ~ present acc (collection w) ->
  deref w l !! "file_url" = Some (VStr u) ->
  network w (requests_made w) u = Responded r ->
  status_code r = 200 ->
  text r = EmptyString ->
  exists w', insert_unique l w = (Ok false, w') /\ collection w' = collection w.
Proof.
  intros Hacc Habs Hurl Hnet Hst Htx.
  apply find_accession_None in Habs.
  destruct (insert_unique_absent l w acc (VStr u) Hacc Habs Hurl) as (w' & Hrun & _ & Hc & _).
  assert (Ht : fetched_text (VStr u) w = Some EmptyString).
  { unfold fetched_text. rewrite Hnet, bool_decide_eq_true_2 by done. by rewrite Htx. }
  rewrite Ht in Hrun, Hc. simpl in Hrun, Hc. rewrite app_nil_r in Hc. eauto.
Qed.

Lemma insert_unique_empty_body_witness :
  exists w', insert_unique 0%nat (world_with (answering 200 EmptyString) [] [acme_record])
             = (Ok false, w')
             /\ collection w' = [].
Proof.
  apply (insert_unique_empty_body 0%nat (world_with (answering 200 EmptyString) [] [acme_record])
           (VStr "acme-10k") acme_url (mk_response 200 [] EmptyString 7)).
  - reflexivity.
  - intros (doc & Hin & _). inversion Hin.
  - reflexivity.
  - reflexivity.
  - reflexivity.
  - reflexivity.
Defined.




(** ** The discipline of the store *)

Lemma count_accession_app (acc : pyval) (a b : list dict) :
  count_accession acc (a ++ b) = (count_accession acc a + count_accession acc b)%nat.
Proof. unfold count_accession. by rewrite List.filter_app, length_app. Qed.

(** Counting and presence. *)
Lemma count_accession_pos (acc : pyval) (c : list dict) :
  (0 < count_accession acc c)%nat <-> present acc c.
Proof.
  unfold count_accession. split.
  - intros H. destruct (List.filter _ c) as [|doc rest] eqn:E; [simpl in H; lia |].
    assert (Hin : In doc (List.filter (matches "accession" acc) c)) by (rewrite E; by left).
    apply filter_In in Hin as [Hin Hm].
    exists doc. split; [by apply list_elem_of_In |].
    unfold matches in Hm. by apply bool_decide_eq_true in Hm.
  - intros (doc & Hin & Hacc).
    assert (Hf : In doc (List.filter (matches "accession" acc) c)).
    { apply filter_In. split; [by apply list_elem_of_In |].
      unfold matches. by apply bool_decide_eq_true. }
    destruct (List.filter _ c); [destruct Hf | simpl; lia].
Qed.

Lemma present_app (acc : pyval) (a b : list dict) :
  present acc (a ++ b) <-> present acc a \/ present acc b.
Proof.
  rewrite <- (count_accession_pos acc (a ++ b)), <- (count_accession_pos acc a),
    <- (count_accession_pos acc b), count_accession_app. lia.
Qed.

Lemma grows_refl (c : list dict) : grows c c.
Proof.
  exists []. split; [by rewrite app_nil_r |]. intros acc. unfold count_accession. simpl. split; [lia | done].
Qed.

(** Extensions that respect the discipline compose. *)
Lemma grows_trans (c1 c2 c3 : list dict) : grows c1 c2 -> grows c2 c3 -> grows c1 c3.
Proof.
  intros (a1 & -> & H1) (a2 & -> & H2).
  exists (a1 ++ a2). split; [by rewrite app_assoc |].
  intros acc. destruct (H1 acc) as [L1 P1], (H2 acc) as [L2 P2].
  rewrite count_accession_app. rewrite present_app in P2.
  split.
  - destruct (count_accession acc a1) as [|n] eqn:E; [lia |].
    rewrite P2; [lia |]. right. apply count_accession_pos. lia.
  - intros Hp. rewrite P1, P2 by auto. done.
Qed.

(** Appending one document with a new accession respects it. *)
Lemma grows_one (c : list dict) (acc : pyval) (d : dict) :
  ~ present acc c -> d !! "accession" = Some acc -> grows c (c ++ [d]).
Proof.
  intros Habs Hd. exists [d]. split; [done |].
  intros acc'. unfold count_accession. simpl.
  destruct (matches "accession" acc' d) eqn:Hm; simpl; split; try lia; try done.
  intros Hp. exfalso. apply Habs.
  unfold matches in Hm. apply bool_decide_eq_true in Hm. congruence.
Qed.

(** ** Well-behaved computations *)

Lemma wb_ret {A} (a : A) : well_behaved (ret a).
Proof. intros w. split; [apply grows_refl | done]. Qed.

Lemma wb_raise {A} (e : exn) : is_Exception e = true -> well_behaved (@raise A e).
Proof. intros He w. split; [apply grows_refl | simpl; congruence]. Qed.

(** Sequencing, handling and the primitive effects are well behaved. *)
Lemma wb_bind {A B} (c : M A) (k : A -> M B) :
  well_behaved c -> (forall a, well_behaved (k a)) -> well_behaved (bind c k).
Proof.
  intros Hc Hk w. unfold bind.
  destruct (Hc w) as [Gc Ec]. destruct (c w) as [[a|e] w1]; simpl in *.
  - destruct (Hk a w1) as [Gk Ek]. split; [eauto using grows_trans | done].
  - split; [done | intros e' [= <-]; auto].
Qed.

Lemma wb_try {A} (body : M A) (handler : exn -> M A) :
  well_behaved body -> (forall e, well_behaved (handler e)) ->
  well_behaved (try_except_Exception body handler).
Proof.
  intros Hb Hh w. unfold try_except_Exception.
  destruct (Hb w) as [Gb Eb]. destruct (body w) as [[a|e] w1]; simpl in *.
  - split; [done | done].
  - rewrite (Eb e eq_refl). destruct (Hh e w1) as [Gh Eh].
    split; [eauto using grows_trans | done].
Qed.

Lemma wb_keeps {A} (m : M A) :
  (forall w, collection (m w).2 = collection w) ->
  (forall w e, (m w).1 = Raise e -> is_Exception e = true) ->
  well_behaved m.
Proof.
  intros Hc He w. split; [rewrite Hc; apply grows_refl | apply He].
Qed.

Lemma wb_logger (r : log_record) : well_behaved (logger r).
Proof. by apply wb_keeps. Qed.

Lemma wb_date_today : well_behaved date_today.
Proof. by apply wb_keeps. Qed.

Lemma wb_requests_get (url : string) : well_behaved (requests_get url).
Proof.
  apply wb_keeps; intros w; unfold requests_get;
    destruct (network w (requests_made w) url); simpl; [done | done | done |].
  by intros e [= <-].
Qed.

Lemma wb_open_wb (path : string) : well_behaved (open_wb path).
Proof.
  apply wb_keeps; intros w; unfold open_wb; case_bool_decide; simpl; try done.
  by intros e [= <-].
Qed.

Lemma wb_file_write (path : string) (chunk : list Byte.byte) :
  well_behaved (file_write path chunk).
Proof. by apply wb_keeps. Qed.

Lemma wb_open_rb (path : string) : well_behaved (open_rb path).
Proof.
  apply wb_keeps; intros w; unfold open_rb; destruct (files w !! path); simpl; try done.
  by intros e [= <-].
Qed.

Lemma wb_new_dict (d : dict) : well_behaved (new_dict d).
Proof. by apply wb_keeps. Qed.

Lemma wb_write_chunks (path : string) (chunks : list (list Byte.byte)) :
  well_behaved (write_chunks path chunks).
Proof.
  induction chunks as [|c cs IH]; simpl; [apply wb_ret |].
  apply wb_bind; [apply wb_file_write | done].
Qed.

Lemma wb_get_today_idx_url : well_behaved get_today_idx_url.
Proof.
  unfold get_today_idx_url. apply wb_bind; [apply wb_date_today |].
  intros d. apply wb_ret.
Qed.

Lemma wb_download_gz (url dest_path : string) : well_behaved (download_gz url dest_path).
Proof.
  unfold download_gz.
  apply wb_bind; [apply wb_logger | intros _].
  apply wb_bind; [apply wb_requests_get | intros r].
  case_bool_decide; [by apply wb_raise |].
  apply wb_bind; [apply wb_open_wb | intros _]. apply wb_write_chunks.
Qed.

Lemma wb_parse_idx_step (filings : list loc) (line : string) :
  well_behaved (parse_idx_step filings line).
Proof.
  unfold parse_idx_step.
  destruct (Py.contains "|" line); [| apply wb_ret].
  destruct (map Py.strip _) as [|cik [|company [|form [|date_filed [|filename [|]]]]]];
    try apply wb_ret.
  case_bool_decide; [| apply wb_ret].
  apply wb_bind; [apply wb_new_dict | intros l; apply wb_ret].
Qed.

Lemma wb_parse_idx_loop (lines : list string) (filings : list loc) :
  well_behaved (parse_idx_loop lines filings).
Proof.
  revert filings. induction lines as [|line rest IH]; intros filings; simpl.
  - apply wb_ret.
  - apply wb_bind; [apply wb_parse_idx_step | done].
Qed.

(** The store writer is well behaved: this is where documents are added. *)
Lemma wb_insert_unique (l : loc) : well_behaved (insert_unique l).
Proof.
  intros w.
  destruct (deref w l !! "accession") as [acc|] eqn:Hacc.
  2: { unfold insert_unique, bind, getitem. rewrite Hacc. simpl.
       split; [apply grows_refl | by intros e [= <-]]. }
  destruct (List.find (matches "accession" acc) (collection w)) as [doc|] eqn:Hfind.
  { rewrite (insert_unique_present l w acc doc) by done. simpl.
    split; [apply grows_refl | done]. }
  destruct (deref w l !! "file_url") as [file_url|] eqn:Hurl.
  - destruct (insert_unique_absent l w acc file_url Hacc Hfind Hurl) as (w' & -> & _ & Hc & _).
    simpl. split; [| done]. rewrite Hc.
    destruct (truthy_text _); [| rewrite app_nil_r; apply grows_refl].
    apply (grows_one _ acc); [by apply find_accession_None |].
    apply enriched_lookup; [| done]. rewrite stamped_lookup. by case_decide.
  - rewrite (insert_unique_absent_unfold l w acc) by done.
    unfold bind. rewrite (getitem_stamped l w "file_url" acc) by done.
    rewrite Hurl. simpl. split; [apply grows_refl | by intros e [= <-]].
Qed.

Lemma wb_insert_all (filings : list loc) (new_count : Z) :
  well_behaved (insert_all filings new_count).
Proof.
  revert new_count. induction filings as [|f fs IH]; intros n; simpl.
  - apply wb_ret.
  - apply wb_bind; [apply wb_insert_unique | done].
Qed.

Lemma wb_with_TemporaryDirectory {A} (body : string -> M A) :
  (forall tmpdir, well_behaved (body tmpdir)) ->
  well_behaved (with_TemporaryDirectory body).
Proof.
  intros Hb w. unfold with_TemporaryDirectory.
  destruct (Hb (tmpname w) (set_dirs ({[tmpname w]} ∪ dirs w) w)) as [G E].
  destruct (body _ _) as [r w1]. simpl in *. done.
Qed.

Lemma wb_decompress_gz (gunzip : list Byte.byte -> list Byte.byte * gzip_outcome)
    (src dest : string) :
  well_behaved (decompress_gz gunzip src dest).
Proof.
  unfold decompress_gz.
  apply wb_bind; [apply wb_open_rb | intros _].
  apply wb_bind; [apply wb_open_wb | intros _].
  apply wb_bind; [apply wb_open_rb | intros data].
  apply wb_bind; [apply wb_file_write | intros _].
  destruct (gunzip data).2; cbn [gzip_error]; [apply wb_ret | by apply wb_raise ..].
Qed.

Lemma wb_parse_idx (decode_ignore : list Byte.byte -> string) (path : string) :
  well_behaved (parse_idx decode_ignore path).
Proof.
  unfold parse_idx. apply wb_bind; [apply wb_open_rb | intros data].
  apply wb_parse_idx_loop.
Qed.

Lemma wb_pipeline (gunzip : list Byte.byte -> list Byte.byte * gzip_outcome)
    (decode_ignore : list Byte.byte -> string) :
  well_behaved (pipeline gunzip decode_ignore).
Proof.
  unfold pipeline.
  apply wb_bind; [apply wb_get_today_idx_url | intros [url filename]].
  apply wb_with_TemporaryDirectory. intros tmpdir.
  apply wb_bind; [apply wb_download_gz | intros _].
  apply wb_bind; [apply wb_decompress_gz | intros _].
  apply wb_bind; [apply wb_parse_idx | intros filings].
  apply wb_bind; [apply wb_logger | intros _].
  apply wb_bind; [apply wb_insert_all | intros n].
  apply wb_logger.
Qed.

Lemma wb_main (gunzip : list Byte.byte -> list Byte.byte * gzip_outcome)
    (decode_ignore : list Byte.byte -> string) :
  well_behaved (main gunzip decode_ignore).
Proof.
  unfold main. apply wb_try; [apply wb_pipeline | intros e; apply wb_logger].
Qed.

(** ** The driver *)

(** The handler of [main] catches whatever the pipeline raises. *)
Lemma main_run (gunzip : list Byte.byte -> list Byte.byte * gzip_outcome)
    (decode_ignore : list Byte.byte -> string)
    (w : World) :
  main gunzip decode_ignore w =
  match pipeline gunzip decode_ignore w with
  | (Ok a, w1) => (Ok a, w1)
  | (Raise e, w1) => (Ok tt, set_log (log w1 ++ [LogFatal e]) w1)
  end.
Proof.
  unfold main, try_except_Exception.
  destruct (wb_pipeline gunzip decode_ignore w) as [_ He].
  destruct (pipeline gunzip decode_ignore w) as [[a|e] w1]; [done |].
  by rewrite (He e eq_refl).
Qed.

(** A run whose archive request is answered with a status other than 200. *)
Lemma main_download_failed (gunzip : list Byte.byte -> list Byte.byte * gzip_outcome)
    (decode_ignore : list Byte.byte -> string)
    (w : World) (url filename : string) (r : response) :
  (get_today_idx_url w).1 = Ok (url, filename) ->
  network w (requests_made w) url = Responded r ->
  status_code r <> 200 ->
  exists w',
    main gunzip decode_ignore w = (Ok tt, w')
    /\ log w' = log w ++ [LogDownloading url; LogFatal (DownloadFailed (status_code r))]
    /\ collection w' = collection w
    /\ heap w' = heap w
    /\ requests_made w' = S (requests_made w).
Proof.
  intros Hloc Hnet Hs. rewrite main_run.
  unfold pipeline. unfold bind at 1.
  assert (Hg : get_today_idx_url w = (Ok (url, filename), w)).
  { revert Hloc. unfold get_today_idx_url, bind, date_today, ret. cbn [fst].
    by intros [= <- <-]. }
  rewrite Hg. unfold with_TemporaryDirectory. unfold bind at 1.
  rewrite download_gz_run. cbv zeta. cbn [network requests_made set_dirs].
  rewrite Hnet, bool_decide_eq_true_2 by done.
  eexists. split; [reflexivity |]. simpl. by rewrite <- app_assoc.
Qed.

(** C6.  [download_gz] raises its download failure if and only if the
    request was answered and the status of the response is not 200 (the
    failure then carries that status); whenever it raises, the files are as
    they were, so no body has been written to the destination; and when this
    happens to the archive of the day, [main] ends normally having logged
    the download and the fatal error only: nothing was parsed (no record
    object was created, no count logged) and nothing was inserted. *)
Theorem download_gz_raises_iff (gunzip : list Byte.byte -> list Byte.byte * gzip_outcome)
    (decode_ignore : list Byte.byte -> string)
    (url dest_path : string) (w : World) :
  (forall s,
     (exists w', download_gz url dest_path w = (Raise (DownloadFailed s), w'))
     <-> (exists r, network w (requests_made w) url = Responded r
                    /\ status_code r = s /\ s <> 200))
  /\ (forall e w', download_gz url dest_path w = (Raise e, w') -> files w' = files w)
  /\ (forall filename r,
        (get_today_idx_url w).1 = Ok (url, filename) ->
        network w (requests_made w) url = Responded r ->
        status_code r <> 200 ->
        exists w',
          main gunzip decode_ignore w = (Ok tt, w')
          /\ log w' = log w ++ [LogDownloading url;
                                LogFatal (DownloadFailed (status_code r))]
          /\ collection w' = collection w
          /\ heap w' = heap w).
Proof.
  split; [| split].
  - intros s. rewrite download_gz_run. cbv zeta.
    destruct (network w (requests_made w) url) as [r|m dt].
    + case_bool_decide as Hs.
      * split.
        -- intros (w' & [= <- _]). eauto.
        -- intros (r' & [= <-] & <- & _). eauto.
      * split.
        -- intros (w' & Hr). by apply open_then_write_raise in Hr as [? _].
        -- intros (r' & [= <-] & <- & Hne). done.
    + split.
      * by intros (w' & ?).
      * by intros (r' & ? & _).
  - intros e w'. rewrite download_gz_run. cbv zeta.
    destruct (network w (requests_made w) url) as [r|m dt].
    + case_bool_decide.
      * by intros [= _ <-].
      * intros Hr. by apply open_then_write_raise in Hr as [_ ->].
    + by intros [= _ <-].
  - intros filename r Hloc Hnet Hs.
    destruct (main_download_failed gunzip decode_ignore w url filename r Hloc Hnet Hs)
      as (w' & ? & ? & ? & ? & _). eauto.
Qed.


Lemma download_gz_raises_iff_witness :
  exists w',
    main stored ascii_text (world_with (answering 404 "Not Found") [] []) = (Ok tt, w')
    /\ log w' = [LogDownloading index_url; LogFatal (DownloadFailed 404)]
    /\ collection w' = []
    /\ heap w' = [].
Proof.
  destruct (download_gz_raises_iff stored ascii_text index_url "/tmp/archive.gz"
              (world_with (answering 404 "Not Found") [] [])) as (_ & _ & H).
  apply (H "master.20240105.idx.gz" (mk_response 404 [] "Not Found" 7)).
  - reflexivity.
  - reflexivity.
  - simpl. lia.
Defined.

(** C8.  Whatever the world (clock, network, files, collection) and
    whatever the libraries deliver, [main] returns normally; an exception
    that leaves the pipeline, at whatever stage, is caught and logged as a
    fatal error in the world the pipeline left. *)
Theorem main_never_propagates (gunzip : list Byte.byte -> list Byte.byte * gzip_outcome)
    (decode_ignore : list Byte.byte -> string)
    (w : World) :
  (forall e w1, pipeline gunzip decode_ignore w = (Raise e, w1) ->
     main gunzip decode_ignore w = (Ok tt, set_log (log w1 ++ [LogFatal e]) w1))
  /\ (exists w', main gunzip decode_ignore w = (Ok tt, w')).
Proof.
  rewrite main_run. destruct (pipeline gunzip decode_ignore w) as [[[]|e] w1].
  - split; [done | eauto].
  - split; [by intros ? ? [= <- <-] | eauto].
Qed.


Lemma main_never_propagates_witness :
  main stored ascii_text (world_with unreachable [] [])
  = (Ok tt,
     set_log (log (pipeline stored ascii_text (world_with unreachable [] [])).2
              ++ [LogFatal (RequestException "Connection refused")])
       (pipeline stored ascii_text (world_with unreachable [] [])).2).
Proof.
  apply (proj1 (main_never_propagates stored ascii_text (world_with unreachable [] []))).
  vm_compute. reflexivity.
Defined.

(** C1.  If a document with the record's accession is in the collection,
    [insert_unique] returns false and leaves the world, hence the store, as
    it is.  And two runs of [main], the second starting from the collection
    the first one left (whatever else differs: clock, network, files),
    together add to the initial collection documents among which every
    accession occurs at most once, and not at all if the initial collection
    held it. *)
Theorem at_most_once_per_accession (gunzip : list Byte.byte -> list Byte.byte * gzip_outcome)
    (decode_ignore : list Byte.byte -> string) :
  (forall l w acc,
     deref w l !! "accession" = Some acc ->
     present acc (collection w) ->
     insert_unique l w = (Ok false, w))
  /\ (forall w1 w2,
        collection w2 = collection (main gunzip decode_ignore w1).2 ->
        exists added,
          collection (main gunzip decode_ignore w2).2 = collection w1 ++ added
          /\ forall acc,
               (count_accession acc added <= 1)%nat
               /\ (present acc (collection w1) -> count_accession acc added = 0%nat)).
Proof.
  split.
  - intros l w acc Hacc Hp.
    destruct (List.find (matches "accession" acc) (collection w)) as [doc|] eqn:E.
    + eauto using insert_unique_present.
    + by apply find_accession_None in E.
  - intros w1 w2 Hkeep.
    destruct (wb_main gunzip decode_ignore w1) as [G1 _].
    destruct (wb_main gunzip decode_ignore w2) as [G2 _].
    rewrite Hkeep in G2. apply (grows_trans _ _ _ G1 G2).
Qed.


Lemma at_most_once_per_accession_witness :
  exists added,
    collection (main stored ascii_text second_run).2 = collection first_run ++ added
    /\ forall acc,
         (count_accession acc added <= 1)%nat
         /\ (present acc (collection first_run) -> count_accession acc added = 0%nat).
Proof.
  apply (proj2 (at_most_once_per_accession stored ascii_text) first_run second_run).
  vm_compute. reflexivity.
Defined.

(** ** The scenarios of the specification *)

(** The index with the Acme 10-K and the Beta 8-K: one filing is parsed and
    inserted, the Acme one, with its text, the time at which the writer
    took it up and the form type 10-K. *)
Example scenario_one_record :
  let w := (main stored ascii_text first_run).2 in
  log w = [LogDownloading index_url; LogParsed 1; LogInserted 1]
  /\ map (fun d => (d !! "accession", d !! "form_type", d !! "raw_text", d !! "ingested_at"))
         (collection w)
     = [(Some (VStr "acme-10k"), Some (VStr "10-K"), Some (VStr "ANNUAL REPORT"),
         Some (VDatetime 1005))].
Proof. by vm_compute. Qed.

(** A second run over the same index, on the store the first one left,
    inserts nothing. *)
Example scenario_second_run :
  let w := (main stored ascii_text second_run).2 in
  log w = [LogDownloading index_url; LogParsed 1; LogInserted 0]
  /\ length (collection w) = 1%nat.
Proof. by vm_compute. Qed.

(** The same line twice in one index: two filings parsed, one inserted. *)
Example scenario_duplicate_line :
  let w := (main stored ascii_text twice_listed).2 in
  log w = [LogDownloading index_url; LogParsed 2; LogInserted 1]
  /\ length (collection w) = 1%nat.
Proof. by vm_compute. Qed.

(** A filing whose text cannot be fetched is not inserted, and is inserted
    by a later run that can fetch it. *)
Example scenario_fetch_fails_then_succeeds :
  let offline n url :=
    match n with
    | O => edgar index_bytes n url
    | _ => TransportFailure "Read timed out" 15
    end in
  let w1 := (main stored ascii_text (world_with offline [] [])).2 in
  let w2 := (main stored ascii_text (set_collection (collection w1) first_run)).2 in
  log w1 = [LogDownloading index_url; LogParsed 1;
            LogFetchException (VStr acme_url) (RequestException "Read timed out");
            LogInserted 0]
  /\ collection w1 = []
  /\ length (collection w2) = 1%nat.
Proof. by vm_compute. Qed.

(** * Further properties of the code *)

(** ** The locator, again *)

Lemma string_app_inv_tail (a b s : string) :
  String.length a = String.length b -> a +:+ s = b +:+ s -> a = b.
Proof.
  revert b. induction a as [|x a IH]; intros [|y b] Hlen H; try done.
  change (String x (a +:+ s) = String y (b +:+ s)) in H.
  injection H as -> H. f_equal. apply IH; [| done].
  cbn in Hlen. lia.
Qed.

(** X1.  The locator maps different dates to different archives: two dates
    for which it gives the same file name are the same date, also before
    the year 1000, where the year is written on fewer than four digits. *)
Theorem get_today_idx_url_injective (w1 w2 : World) (url1 url2 filename : string) :
  date_in_range (today w1) ->
  date_in_range (today w2) ->
  (get_today_idx_url w1).1 = Ok (url1, filename) ->
  (get_today_idx_url w2).1 = Ok (url2, filename) ->
  today w1 = today w2.
Proof.
  intros H1 H2 Hf1 Hf2.
  destruct (strftime_Ymd_digits _ H1) as (_ & V1 & _).
  destruct (strftime_Ymd_digits _ H2) as (_ & V2 & _).
  unfold get_today_idx_url, bind, date_today, ret in Hf1, Hf2. cbn [fst] in Hf1, Hf2.
  assert (Hname : "master." +:+ strftime_Ymd (today w1) +:+ ".idx.gz"
                  = "master." +:+ strftime_Ymd (today w2) +:+ ".idx.gz").
  { transitivity filename; [| symmetry]; [revert Hf1 | revert Hf2];
      intros Hf;
      exact (f_equal (fun r => match r with
                               | Ok p => snd p
                               | Raise _ => EmptyString
                               end) Hf). }
  apply (f_equal (fun s => match s with
                           | String _ (String _ (String _ (String _
                               (String _ (String _ (String _ rest)))))) => rest
                           | _ => EmptyString
                           end)) in Hname.
  change (strftime_Ymd (today w1) +:+ ".idx.gz"
          = strftime_Ymd (today w2) +:+ ".idx.gz") in Hname.
  apply string_app_inv_tail in Hname.
  2: { apply (f_equal String.length) in Hname. rewrite !length_append in Hname. lia. }
  rewrite Hname in V1. rewrite V1 in V2.
  destruct H1 as (Y1 & M1 & D1), H2 as (Y2 & M2 & D2).
  destruct (today w1) as [y1 m1 d1], (today w2) as [y2 m2 d2]. cbn in *.
  assert (y1 = y2 /\ m1 = m2 /\ d1 = d2) as (-> & -> & ->) by lia. done.
Qed.

Lemma get_today_idx_url_injective_witness : today first_run = today second_run.
Proof.
  apply (get_today_idx_url_injective first_run second_run index_url index_url
           "master.20240105.idx.gz").
  - unfold date_in_range. simpl. lia.
  - unfold date_in_range. simpl. lia.
  - reflexivity.
  - reflexivity.
Defined.

(** ** Download and extraction *)

(** X3.  Whatever the outcome, [download_gz] makes exactly one request and
    logs exactly one line; it leaves every file other than its destination,
    the directories, the collection and the record objects as they were. *)
Theorem download_gz_frame (url dest_path : string) (w : World) :
  (forall p, p <> dest_path ->
     files (download_gz url dest_path w).2 !! p = files w !! p)
  /\ collection (download_gz url dest_path w).2 = collection w
  /\ heap (download_gz url dest_path w).2 = heap w
  /\ dirs (download_gz url dest_path w).2 = dirs w
  /\ requests_made (download_gz url dest_path w).2 = S (requests_made w)
  /\ log (download_gz url dest_path w).2 = log w ++ [LogDownloading url].
Proof.
  rewrite download_gz_run. cbv zeta.
  destruct (network w (requests_made w) url) as [r|m dt]; [| done].
  case_bool_decide; [done |].
  unfold bind, open_wb. cbn [dirs set_clock set_requests_made set_log].
  case_bool_decide; [| done].
  rewrite write_chunks_run.
  destruct (iter_content 1024 (content r)) as [|c cs]; cbn.
  - split; [| done]. intros p Hp. by rewrite lookup_insert_ne.
  - split; [| done]. intros p Hp. by rewrite lookup_alter_ne, lookup_insert_ne.
Qed.

Lemma download_gz_frame_witness :
  files (download_gz index_url "/tmp/archive.gz"
           (set_files {[ "/tmp/other" := [] ]} first_run)).2 !! "/tmp/other"
  = Some [].
Proof.
  refine (proj1 (download_gz_frame index_url "/tmp/archive.gz"
                   (set_files {[ "/tmp/other" := [] ]} first_run)) "/tmp/other" _).
  discriminate.
Defined.






(** ** The parser on a whole file *)

Lemma parse_idx_step_record (filings : list loc) (line : string) (w : World) :
  parse_idx_step filings line w =
  match record_of_line line with
  | Some d => (Ok (filings ++ [length (heap w)]), set_heap (heap w ++ [d]) w)
  | None => (Ok filings, w)
  end.
Proof.
  unfold parse_idx_step, record_of_line.
  destruct (Py.contains "|" line); [| done].
  destruct (map Py.strip _) as [|? [|? [|? [|? [|? [|]]]]]]; try done.
  by case_bool_decide.
Qed.

Lemma set_heap_same (w : World) : set_heap (heap w) w = w.
Proof. by destruct w. Qed.

Lemma parse_idx_loop_records (lines : list string) (filings : list loc) (w : World) :
  parse_idx_loop lines filings w =
  (Ok (filings ++ seq (length (heap w)) (length (omap record_of_line lines))),
   set_heap (heap w ++ omap record_of_line lines) w).
Proof.
  revert filings w. induction lines as [|line rest IH]; intros filings w.
  - cbn. by rewrite !app_nil_r, set_heap_same.
  - cbn [parse_idx_loop omap list_omap]. unfold bind.
    rewrite parse_idx_step_record.
    destruct (record_of_line line) as [d|].
    + rewrite IH. cbn [heap set_heap length seq].
      rewrite length_app, <- !app_assoc. cbn [length app].
      by rewrite Nat.add_1_r.
    + by rewrite IH.
Qed.

Lemma length_omap_le {A B} (f : A -> option B) (l : list A) :
  (length (omap f l) <= length l)%nat.
Proof.
  induction l as [|x l IH]; [done |]. cbn. destruct (f x); cbn; lia.
Qed.

Lemma parse_idx_run (decode_ignore : list Byte.byte -> string) (path : string)
    (w : World) (data : list Byte.byte) :
  files w !! path = Some data ->
  parse_idx decode_ignore path w =
  (Ok (seq (length (heap w))
         (length (omap record_of_line (readlines (decode_ignore data))))),
   set_heap (heap w ++ omap record_of_line (readlines (decode_ignore data))) w).
Proof.
  intros Hfile. unfold parse_idx, bind, open_rb. rewrite Hfile.
  by rewrite parse_idx_loop_records.
Qed.

(** X6.  [parse_idx] on a missing file raises [FileNotFoundError] in an
    unchanged world.  On an existing file it never raises: it returns the
    references of newly created record objects, one for each line that gives
    a record, in the order of the file; the objects that existed are as they
    were, there are no more records than lines, and nothing is logged,
    stored or written. *)
Theorem parse_idx_creates_records (decode_ignore : list Byte.byte -> string)
    (path : string) (w : World) :
  (files w !! path = None ->
   parse_idx decode_ignore path w = (Raise (FileNotFoundError path), w))
  /\ (forall data,
        files w !! path = Some data ->
        exists filings w',
          parse_idx decode_ignore path w = (Ok filings, w')
          /\ filings = seq (length (heap w)) (length filings)
          /\ heap w' = heap w ++ omap record_of_line (readlines (decode_ignore data))
          /\ length (heap w') = (length (heap w) + length filings)%nat
          /\ (length filings <= length (readlines (decode_ignore data)))%nat
          /\ log w' = log w
          /\ collection w' = collection w
          /\ files w' = files w).
Proof.
  split.
  - intros Hnone. unfold parse_idx, bind, open_rb. by rewrite Hnone.
  - intros data Hfile. rewrite (parse_idx_run _ _ _ data Hfile).
    eexists _, _. split; [reflexivity |]. cbn.
    rewrite !length_seq, length_app.
    split; [done |]. split; [done |]. split; [done |].
    split; [| done]. apply length_omap_le.
Qed.

Lemma record_of_line_fields (line : string) (d : dict) :
  record_of_line line = Some d ->
  exists cik company form date_filed filename,
    map Py.strip (Py.split "|" (Py.strip line)) = [cik; company; form; date_filed; filename]
    /\ form ∈ TARGET_FORMS
    /\ d = <["cik" := VStr cik]>
           (<["company" := VStr company]>
           (<["form_type" := VStr form]>
           (<["date_filed" := VStr date_filed]>
           (<["accession" :=
                VStr (Py.replace ".txt" EmptyString (Py.last_field (Py.split "/" filename)))]>
           (<["file_url" := VStr ("https://www.sec.gov/Archives/" +:+ filename)]> ∅))))).
Proof.
  unfold record_of_line.
  destruct (Py.contains "|" line); [| done].
  destruct (map Py.strip _) as [|cik [|company [|form [|date_filed [|filename [|]]]]]];
    try done.
  case_bool_decide; [| done]. intros [= <-]. eauto 10.
Qed.

Lemma split_nonempty (sep : ascii) (s : string) : Py.split sep s <> [].
Proof.
  destruct s as [|c s]; [done |]. cbn [Py.split].
  destruct (Ascii.eqb c sep); [done |]. by destruct (Py.split sep s).
Qed.

Lemma last_field_cons (f : string) (fs : list string) :
  fs <> [] -> Py.last_field (f :: fs) = Py.last_field fs.
Proof. by destruct fs. Qed.

Lemma last_field_no_separator (sep : ascii) (s : string) :
  Py.contains sep (Py.last_field (Py.split sep s)) = false.
Proof.
  induction s as [|c s IH]; [done |]. cbn [Py.split].
  destruct (Ascii.eqb c sep) eqn:Hc.
  - rewrite last_field_cons by apply split_nonempty. done.
  - pose proof (split_nonempty sep s) as Hne.
    destruct (Py.split sep s) as [|f fs]; [done |].
    destruct fs as [|g gs].
    + cbn in *. by rewrite Hc, IH.
    + rewrite last_field_cons by done. by rewrite last_field_cons in IH.
Qed.

Lemma replace_from_no_new_char (old : string) (c : ascii) (s : string) (skip : nat) :
  Py.contains c s = false ->
  Py.contains c (Py.replace_from old EmptyString skip s) = false.
Proof.
  revert skip. induction s as [|x s IH]; intros skip; [done |].
  cbn [Py.contains Py.replace_from]. intros H.
  apply orb_false_iff in H as [Hx Hs].
  destruct skip as [|k]; [| by apply IH].
  destruct (String.prefix old (String x s)).
  - by apply IH.
  - cbn [Py.contains]. by rewrite Hx, IH.
Qed.

Lemma accession_no_slash (filename : string) :
  Py.contains "/" (Py.replace ".txt" EmptyString (Py.last_field (Py.split "/" filename)))
  = false.
Proof.
  unfold Py.replace. apply replace_from_no_new_char, last_field_no_separator.
Qed.

(** X7.  Every record [parse_idx] returns is a new object with exactly the
    six fields cik, company, form_type, date_filed, accession and file_url,
    all strings; its form type is in the accepted set, its file_url is the
    archive root followed by the file name, and its accession contains no
    slash. *)
Theorem parse_idx_record_shape (decode_ignore : list Byte.byte -> string)
    (path : string) (w w' : World) (filings : list loc) (l : loc) :
  parse_idx decode_ignore path w = (Ok filings, w') ->
  l ∈ filings ->
  exists d cik company form date_filed accession filename,
    heap w' !! l = Some d
    /\ (length (heap w) <= l)%nat
    /\ dom d = {[ "cik"; "company"; "form_type"; "date_filed"; "accession"; "file_url" ]}
    /\ d !! "cik" = Some (VStr cik)
    /\ d !! "company" = Some (VStr company)
    /\ d !! "form_type" = Some (VStr form)
    /\ d !! "date_filed" = Some (VStr date_filed)
    /\ d !! "accession" = Some (VStr accession)
    /\ d !! "file_url" = Some (VStr ("https://www.sec.gov/Archives/" +:+ filename))
    /\ form ∈ TARGET_FORMS
    /\ Py.contains "/" accession = false.
Proof.
  intros Hrun Hl.
  destruct (files w !! path) as [data|] eqn:Hfile.
  2: { revert Hrun. unfold parse_idx, bind, open_rb. by rewrite Hfile. }
  rewrite (parse_idx_run _ _ _ data Hfile) in Hrun.
  set (recs := omap record_of_line (readlines (decode_ignore data))) in *.
  injection Hrun as <- <-.
  apply elem_of_seq in Hl as [Hlo Hhi].
  destruct (recs !! (l - length (heap w))%nat) as [d|] eqn:Hd.
  2: { apply lookup_ge_None in Hd. lia. }
  assert (Hin : d ∈ recs) by (apply list_elem_of_lookup; eauto).
  apply list_elem_of_omap in Hin as (line & _ & Hrec).
  apply record_of_line_fields in Hrec
    as (cik & company & form & date_filed & filename & _ & Hform & Hdict).
  exists d, cik, company, form, date_filed,
    (Py.replace ".txt" EmptyString (Py.last_field (Py.split "/" filename))), filename.
  split; [cbn [heap set_heap]; rewrite lookup_app_r by lia; exact Hd |].
  split; [lia |].
  rewrite Hdict.
  split; [rewrite !dom_insert_L, dom_empty_L; set_solver |].
  do 6 (split; [by simplify_map_eq |]).
  split; [done |]. apply accession_no_slash.
Qed.

Lemma parse_idx_creates_records_witness :
  parse_idx ascii_text "/tmp/missing.idx" indexed
  = (Raise (FileNotFoundError "/tmp/missing.idx"), indexed).
Proof.
  apply (proj1 (parse_idx_creates_records ascii_text "/tmp/missing.idx" indexed)).
  reflexivity.
Defined.

Lemma parse_idx_record_shape_witness :
  exists d form,
    heap (parse_idx ascii_text "/tmp/master.idx" indexed).2 !! 0%nat = Some d
    /\ d !! "form_type" = Some (VStr form)
    /\ form ∈ TARGET_FORMS.
Proof.
  destruct (parse_idx_record_shape ascii_text "/tmp/master.idx" indexed
              (parse_idx ascii_text "/tmp/master.idx" indexed).2 [0%nat] 0%nat)
    as (d & cik & company & form & date_filed & accession & filename
        & Hd & _ & _ & _ & _ & Hform & _ & _ & _ & Hin & _).
  - vm_compute. reflexivity.
  - apply list_elem_of_here.
  - exists d, form. split; [assumption | split; assumption].
Defined.

(** A well-formed line is read back field by field. *)
Lemma lstrip_before_pipe (a b : string) :
  Py.lstrip a = a -> Py.lstrip (a +:+ String "|" b) = a +:+ String "|" b.
Proof.
  destruct a as [|c a]; [done |]. simpl.
  destruct (Py.isspace c) eqn:Hc; [| done].
  intros H. exfalso.
  assert (Hlen : forall s, (String.length (Py.lstrip s) <= String.length s)%nat).
  { induction s as [|x s IH]; [done |]. cbn [Py.lstrip].
    destruct (Py.isspace x); cbn [String.length]; lia. }
  specialize (Hlen a). rewrite H in Hlen. cbn [String.length] in Hlen. lia.
Qed.

Lemma rstrip_before_pipe (a b : string) :
  Py.rstrip (a +:+ String "|" b) = a +:+ String "|" (Py.rstrip b).
Proof.
  induction a as [|c a IH].
  - simpl. by destruct (Py.rstrip b).
  - change (Py.rstrip (String c (a +:+ String "|" b))
            = String c (a +:+ String "|" (Py.rstrip b))).
    cbn [Py.rstrip]. rewrite IH. by destruct a.
Qed.

Lemma rstrip_newline (f : string) : Py.rstrip (f +:+ newline) = Py.rstrip f.
Proof.
  induction f as [|c f IH]; [done |].
  change (Py.rstrip (String c (f +:+ newline)) = Py.rstrip (String c f)).
  cbn [Py.rstrip]. by rewrite IH.
Qed.

Lemma split_before_separator (sep : ascii) (a b : string) :
  Py.contains sep a = false ->
  Py.split sep (a +:+ String sep b) = a :: Py.split sep b.
Proof.
  induction a as [|c a IH].
  - intros _. simpl. by rewrite Ascii.eqb_refl.
  - change (Py.contains sep (String c a) = false ->
            Py.split sep (String c (a +:+ String sep b)) = String c a :: Py.split sep b).
    cbn [Py.contains Py.split]. intros H.
    apply orb_false_iff in H as [Hc Ha]. by rewrite Hc, IH.
Qed.

Lemma strip_trimmed (f : string) : trimmed f -> Py.strip f = f.
Proof. intros [Hl Hr]. unfold Py.strip. by rewrite Hl, Hr. Qed.

Lemma index_line_fields (cik company form date_filed filename : string) :
  trimmed cik -> trimmed company -> trimmed form -> trimmed date_filed ->
  trimmed filename ->
  Py.contains "|" cik = false -> Py.contains "|" company = false ->
  Py.contains "|" form = false -> Py.contains "|" date_filed = false ->
  Py.contains "|" filename = false ->
  map Py.strip (Py.split "|" (Py.strip (index_line cik company form date_filed filename)))
  = [cik; company; form; date_filed; filename].
Proof.
  intros T1 T2 T3 T4 T5 P1 P2 P3 P4 P5.
  assert (Hs : Py.strip (index_line cik company form date_filed filename)
               = cik +:+ String "|" (company +:+ String "|" (form +:+ String "|"
                   (date_filed +:+ String "|" filename)))).
  { unfold index_line, Py.strip.
    rewrite lstrip_before_pipe by apply T1.
    by rewrite !rstrip_before_pipe, rstrip_newline, (proj2 T5). }
  rewrite Hs.
  rewrite !split_before_separator by done.
  rewrite split_without_separator by done.
  cbn [map]. by rewrite !strip_trimmed.
Qed.

(** X8.  Reading back a well-formed line: for five fields without pipes and
    without blanks at their ends, the form type being accepted, the line
    [cik|company|form|date|filename] followed by a newline gives one record
    that carries exactly these fields, and the file_url of that file
    name. *)
Theorem parse_idx_step_reads_fields (filings : list loc) (w : World)
    (cik company form date_filed filename : string) :
  trimmed cik -> trimmed company -> trimmed form -> trimmed date_filed ->
  trimmed filename ->
  Py.contains "|" cik = false -> Py.contains "|" company = false ->
  Py.contains "|" form = false -> Py.contains "|" date_filed = false ->
  Py.contains "|" filename = false ->
  form ∈ TARGET_FORMS ->
  exists d,
    parse_idx_step filings (index_line cik company form date_filed filename) w
    = (Ok (filings ++ [length (heap w)]), set_heap (heap w ++ [d]) w)
    /\ d !! "cik" = Some (VStr cik)
    /\ d !! "company" = Some (VStr company)
    /\ d !! "form_type" = Some (VStr form)
    /\ d !! "date_filed" = Some (VStr date_filed)
    /\ d !! "file_url" = Some (VStr ("https://www.sec.gov/Archives/" +:+ filename)).
Proof.
  intros T1 T2 T3 T4 T5 P1 P2 P3 P4 P5 Hform.
  destruct (parse_idx_step_accepts filings
              (index_line cik company form date_filed filename) w
              cik company form date_filed filename)
    as (d & Hrun & _ & Hurl & Hcik & Hco & Hf & Hdate).
  - by apply index_line_fields.
  - done.
  - exists d. by repeat split.
Qed.

Lemma parse_idx_step_reads_fields_witness :
  exists d,
    parse_idx_step [] acme_line first_run
    = (Ok [0%nat], set_heap [d] first_run)
    /\ d !! "cik" = Some (VStr "0001")
    /\ d !! "company" = Some (VStr "Acme Co")
    /\ d !! "form_type" = Some (VStr "10-K")
    /\ d !! "date_filed" = Some (VStr "2024-01-05")
    /\ d !! "file_url" = Some (VStr acme_url).
Proof.
  apply (parse_idx_step_reads_fields [] first_run "0001" "Acme Co" "10-K" "2024-01-05"
           "edgar/data/1/acme-10k.txt").
  1-5: split; reflexivity.
  1-5: reflexivity.
  apply (bool_decide_eq_true ("10-K" ∈ TARGET_FORMS)). by vm_compute.
Defined.

(** ** The fetcher and the log *)

(** X9.  A text fetch of a string URL makes exactly one request and touches
    neither the collection nor the files; it logs nothing on status 200, one
    warning on any other status, and one error, carrying the exception, on a
    transport failure. *)
Theorem fetch_filing_text_logs (u : string) (w : World) :
  requests_made (fetch_filing_text (VStr u) w).2 = S (requests_made w)
  /\ collection (fetch_filing_text (VStr u) w).2 = collection w
  /\ files (fetch_filing_text (VStr u) w).2 = files w
  /\ (forall r, network w (requests_made w) u = Responded r ->
        status_code r = 200 ->
        log (fetch_filing_text (VStr u) w).2 = log w)
  /\ (forall r, network w (requests_made w) u = Responded r ->
        status_code r <> 200 ->
        log (fetch_filing_text (VStr u) w).2 = log w ++ [LogFetchFailed (VStr u)]
        /\ level_of (LogFetchFailed (VStr u)) = WARNING)
  /\ (forall m dt, network w (requests_made w) u = TransportFailure m dt ->
        log (fetch_filing_text (VStr u) w).2
        = log w ++ [LogFetchException (VStr u) (RequestException m)]
        /\ level_of (LogFetchException (VStr u) (RequestException m)) = ERROR).
Proof.
  unfold fetch_filing_text. unfold_effects.
  destruct (network w (requests_made w) u) as [r|m dt]; cbn;
    [case_bool_decide; cbn |];
    repeat split; try done; intros; by simplify_eq.
Qed.

Lemma fetch_filing_text_logs_witness :
  log (fetch_filing_text (VStr acme_url) (world_with (answering 404 "Not Found") [] [])).2
  = [] ++ [LogFetchFailed (VStr acme_url)]
  /\ level_of (LogFetchFailed (VStr acme_url)) = WARNING.
Proof.
  destruct (fetch_filing_text_logs acme_url (world_with (answering 404 "Not Found") [] []))
    as (_ & _ & _ & _ & H & _).
  apply (H (mk_response 404 [] "Not Found" 7)).
  - reflexivity.
  - discriminate.
Defined.

(** ** The store writer, call after call *)

(** X10.  A record without an accession makes [insert_unique] raise
    [KeyError] in an unchanged world.  A record with a new accession but
    without a file_url makes it raise [KeyError] after the record has been
    stamped with [ingested_at]: the object is changed, nothing is fetched or
    stored. *)
Theorem insert_unique_missing_key (l : loc) (w : World) :
  (deref w l !! "accession" = None ->
   insert_unique l w = (Raise (KeyError "accession"), w))
  /\ (forall acc,
        deref w l !! "accession" = Some acc ->
        ~ present acc (collection w) ->
        deref w l !! "file_url" = None ->
        insert_unique l w
        = (Raise (KeyError "file_url"), set_heap (<[l := stamped w l]> (heap w)) w)).
Proof.
  split.
  - intros Hacc. unfold insert_unique, bind, getitem. by rewrite Hacc.
  - intros acc Hacc Habs Hurl. apply find_accession_None in Habs.
    rewrite (insert_unique_absent_unfold l w acc) by done.
    unfold bind. rewrite (getitem_stamped l w "file_url" acc) by done.
    by rewrite Hurl.
Qed.

Lemma insert_unique_missing_key_witness :
  insert_unique 0%nat (world_with unreachable [] [∅])
  = (Raise (KeyError "accession"), world_with unreachable [] [∅]).
Proof.
  apply (proj1 (insert_unique_missing_key 0%nat (world_with unreachable [] [∅]))).
  reflexivity.
Defined.

Lemma insert_unique_true (l : loc) (w w' : World) (acc : pyval) :
  deref w l !! "accession" = Some acc ->
  insert_unique l w = (Ok true, w') ->
  exists file_url t,
    ~ present acc (collection w)
    /\ deref w l !! "file_url" = Some file_url
    /\ fetched_text file_url w = Some t
    /\ heap w' = <[l := enriched w l t]> (heap w)
    /\ collection w' = collection w ++ [enriched w l t].
Proof.
  intros Hacc Hrun.
  destruct (List.find (matches "accession" acc) (collection w)) as [doc|] eqn:Hfind.
  { rewrite (insert_unique_present l w acc doc) in Hrun by done. done. }
  destruct (deref w l !! "file_url") as [file_url|] eqn:Hurl.
  - destruct (insert_unique_absent l w acc file_url Hacc Hfind Hurl)
      as (w1 & Hrun1 & Hh & Hc & _).
    rewrite Hrun1 in Hrun. injection Hrun as Ht <-.
    rewrite Ht in Hh, Hc.
    destruct (fetched_text file_url w) as [t|] eqn:Hft; [| done].
    exists file_url, t. split; [by apply find_accession_None |]. done.
  - rewrite (insert_unique_absent_unfold l w acc) in Hrun by done.
    unfold bind in Hrun. rewrite (getitem_stamped l w "file_url" acc) in Hrun by done.
    by rewrite Hurl in Hrun.
Qed.

Lemma enriched_accession (w : World) (l : loc) (t : string) (acc : pyval) :
  deref w l !! "accession" = Some acc -> enriched w l t !! "accession" = Some acc.
Proof.
  intros Hacc. apply enriched_lookup; [| done]. rewrite stamped_lookup. by case_decide.
Qed.

(** X11.  Once [insert_unique] has returned true for a record, its accession
    is in the collection, and a further call, on the same record or on any
    record with that accession, returns false and changes nothing. *)
Theorem insert_unique_then_known (l : loc) (w w' : World) (acc : pyval) :
  deref w l !! "accession" = Some acc ->
  insert_unique l w = (Ok true, w') ->
  present acc (collection w')
  /\ insert_unique l w' = (Ok false, w')
  /\ (forall l', deref w' l' !! "accession" = Some acc ->
                 insert_unique l' w' = (Ok false, w')).
Proof.
  intros Hacc Hrun.
  pose proof (deref_valid _ _ _ _ Hacc) as Hl.
  destruct (insert_unique_true l w w' acc Hacc Hrun)
    as (file_url & t & _ & _ & _ & Hh & Hc).
  assert (Hp : present acc (collection w')).
  { exists (enriched w l t). rewrite Hc. split.
    - apply elem_of_app. right. apply list_elem_of_here.
    - by apply enriched_accession. }
  assert (Hagain : forall l', deref w' l' !! "accession" = Some acc ->
                              insert_unique l' w' = (Ok false, w')).
  { intros l' Hacc'.
    destruct (List.find (matches "accession" acc) (collection w')) as [doc|] eqn:E.
    - eauto using insert_unique_present.
    - by apply find_accession_None in E. }
  split; [done |]. split; [| done].
  apply Hagain. unfold deref. rewrite Hh, list_lookup_insert_eq by done.
  by apply enriched_accession.
Qed.

Lemma insert_unique_then_known_witness :
  insert_unique 0%nat
    (insert_unique 0%nat (world_with (answering 200 "ANNUAL REPORT") [] [acme_record])).2
  = (Ok false,
     (insert_unique 0%nat (world_with (answering 200 "ANNUAL REPORT") [] [acme_record])).2).
Proof.
  refine (proj1 (proj2 (insert_unique_then_known 0%nat
            (world_with (answering 200 "ANNUAL REPORT") [] [acme_record])
            (insert_unique 0%nat
               (world_with (answering 200 "ANNUAL REPORT") [] [acme_record])).2
            (VStr "acme-10k") _ _))).
  - reflexivity.
  - vm_compute. reflexivity.
Defined.



Lemma fetch_filing_text_requests (file_url : pyval) (w : World) :
  (requests_made w <= requests_made (fetch_filing_text file_url w).2
   <= S (requests_made w))%nat.
Proof.
  unfold fetch_filing_text. unfold_effects.
  destruct file_url as [u| |]; cbn; try lia.
  destruct (network w (requests_made w) u) as [r|m dt]; cbn; [| lia].
  case_bool_decide; cbn; lia.
Qed.

Lemma insert_unique_requests (l : loc) (w : World) :
  (requests_made w <= requests_made (insert_unique l w).2 <= S (requests_made w))%nat.
Proof.
  destruct (deref w l !! "accession") as [acc|] eqn:Hacc.
  2: { unfold insert_unique, bind, getitem. rewrite Hacc. cbn. lia. }
  destruct (List.find (matches "accession" acc) (collection w)) as [doc|] eqn:Hfind.
  { rewrite (insert_unique_present l w acc doc) by done. cbn. lia. }
  pose proof (insert_unique_absent_unfold l w acc Hacc Hfind) as Hrun.
  unfold bind at 1 in Hrun.
  rewrite (getitem_stamped l w "file_url" acc) in Hrun by done.
  destruct (deref w l !! "file_url") as [file_url|]; [| rewrite Hrun; simpl; lia].
  unfold bind at 1 in Hrun.
  pose proof (fetch_filing_text_requests file_url
                (set_heap (<[l := stamped w l]> (heap w)) w)) as Hr.
  change (requests_made (set_heap (<[l := stamped w l]> (heap w)) w))
    with (requests_made w) in Hr.
  destruct (fetch_filing_text file_url _) as [[t|e] w2]; cbn [snd] in Hr;
    [| by rewrite Hrun].
  destruct (truthy_text t); [| by rewrite Hrun].
  rewrite Hrun. unfold bind, setitem, insert_one, ret. simpl.
  by destruct (_ !! "_id").
Qed.

(** X15.  The loop of [main] makes at most one request per filing, whatever
    its outcome. *)
Theorem insert_all_requests (filings : list loc) (n : Z) (w : World) :
  (requests_made w <= requests_made (insert_all filings n w).2
   <= requests_made w + length filings)%nat.
Proof.
  revert n w. induction filings as [|f fs IH]; intros n w.
  - cbn. lia.
  - cbn [insert_all length]. unfold bind.
    pose proof (insert_unique_requests f w) as Hr.
    destruct (insert_unique f w) as [[b|e] w1]; cbn [snd] in *; [| lia].
    specialize (IH (if b then n + 1 else n) w1). lia.
Qed.

(** X13.  [insert_unique] changes no record object other than the one it is
    given, whatever its outcome. *)
Theorem insert_unique_other_records (l l' : loc) (w : World) :
  l <> l' ->
  heap (insert_unique l w).2 !! l' = heap w !! l'.
Proof.
  intros Hne.
  destruct (deref w l !! "accession") as [acc|] eqn:Hacc.
  2: { unfold insert_unique, bind, getitem. by rewrite Hacc. }
  destruct (List.find (matches "accession" acc) (collection w)) as [doc|] eqn:Hfind.
  { by rewrite (insert_unique_present l w acc doc). }
  destruct (deref w l !! "file_url") as [file_url|] eqn:Hurl.
  - destruct (insert_unique_absent l w acc file_url Hacc Hfind Hurl) as (w' & -> & Hh & _).
    cbn [snd]. rewrite Hh. by apply list_lookup_insert_ne.
  - rewrite (insert_unique_absent_unfold l w acc) by done.
    unfold bind. rewrite (getitem_stamped l w "file_url" acc) by done.
    rewrite Hurl. cbn. by apply list_lookup_insert_ne.
Qed.

Lemma insert_unique_other_records_witness :
  heap (insert_unique 0%nat
          (world_with (answering 200 "ANNUAL REPORT") [] [acme_record; archived_record])).2
    !! 1%nat
  = Some archived_record.
Proof.
  apply (insert_unique_other_records 0%nat 1%nat
           (world_with (answering 200 "ANNUAL REPORT") [] [acme_record; archived_record])).
  discriminate.
Defined.

(** ** The driver: counting and cleaning up *)

(** X18.  The store is append-only: a document that is in the collection is
    still there, at the same position and unchanged, after any call of
    [insert_unique] and after any run of [main]. *)
Theorem store_is_append_only (gunzip : list Byte.byte -> list Byte.byte * gzip_outcome)
    (decode_ignore : list Byte.byte -> string) (w : World) (i : nat) (doc : dict) :
  collection w !! i = Some doc ->
  (forall l, collection (insert_unique l w).2 !! i = Some doc)
  /\ collection (main gunzip decode_ignore w).2 !! i = Some doc.
Proof.
  intros Hdoc. split.
  - intros l. destruct (wb_insert_unique l w) as [(added & -> & _) _].
    by apply lookup_app_l_Some.
  - destruct (wb_main gunzip decode_ignore w) as [(added & -> & _) _].
    by apply lookup_app_l_Some.
Qed.

Lemma store_is_append_only_witness :
  collection (main stored ascii_text (world_with unreachable [seen_doc] [])).2 !! 0%nat
  = Some seen_doc.
Proof.
  apply (store_is_append_only stored ascii_text (world_with unreachable [seen_doc] [])
           0%nat seen_doc).
  reflexivity.
Defined.

(** Computations that leave the collection alone. *)
Lemma kc_bind {A B} (c : M A) (k : A -> M B) :
  (forall w, collection (c w).2 = collection w) ->
  (forall a w, collection (k a w).2 = collection w) ->
  forall w, collection (bind c k w).2 = collection w.
Proof.
  intros Hc Hk w. unfold bind. specialize (Hc w).
  destruct (c w) as [[a|e] w1]; cbn in *; [| done]. by rewrite Hk.
Qed.

Lemma kc_write_chunks (path : string) (chunks : list (list Byte.byte)) (w : World) :
  collection (write_chunks path chunks w).2 = collection w.
Proof. rewrite write_chunks_run. by destruct chunks. Qed.

Lemma kc_download_gz (url dest_path : string) (w : World) :
  collection (download_gz url dest_path w).2 = collection w.
Proof.
  rewrite download_gz_run. cbv zeta.
  destruct (network w (requests_made w) url) as [r|m dt]; [| done].
  case_bool_decide; [done |].
  unfold bind, open_wb. case_bool_decide; [| done]. by rewrite kc_write_chunks.
Qed.

Lemma kc_decompress_gz (gunzip : list Byte.byte -> list Byte.byte * gzip_outcome)
    (src dest : string) (w : World) :
  collection (decompress_gz gunzip src dest w).2 = collection w.
Proof.
  unfold decompress_gz, bind, open_rb, open_wb, file_write, ret, raise.
  destruct (files w !! src); [| done]. case_bool_decide; [| done]. cbn.
  destruct (_ !! src) as [data|]; [| done]. cbn.
  by destruct (gzip_error (gunzip data).2).
Qed.

Lemma kc_parse_idx (decode_ignore : list Byte.byte -> string) (path : string) (w : World) :
  collection (parse_idx decode_ignore path w).2 = collection w.
Proof.
  unfold parse_idx, bind, open_rb. destruct (files w !! path); [| done].
  by rewrite parse_idx_loop_records.
Qed.

Lemma insert_unique_length (l : loc) (w : World) :
  length (collection (insert_unique l w).2)
  = (length (collection w)
     + match (insert_unique l w).1 with Ok true => 1 | _ => 0 end)%nat.
Proof.
  destruct (deref w l !! "accession") as [acc|] eqn:Hacc.
  2: { unfold insert_unique, bind, getitem. rewrite Hacc. cbn. lia. }
  destruct (List.find (matches "accession" acc) (collection w)) as [doc|] eqn:Hfind.
  { rewrite (insert_unique_present l w acc doc) by done. cbn. lia. }
  destruct (deref w l !! "file_url") as [file_url|] eqn:Hurl.
  - destruct (insert_unique_absent l w acc file_url Hacc Hfind Hurl) as (w' & -> & _ & Hc & _).
    cbn. rewrite Hc, length_app. by destruct (truthy_text _).
  - rewrite (insert_unique_absent_unfold l w acc) by done.
    unfold bind. rewrite (getitem_stamped l w "file_url" acc) by done.
    rewrite Hurl. cbn. lia.
Qed.

Lemma insert_all_counts (filings : list loc) (n m : Z) (w w' : World) :
  insert_all filings n w = (Ok m, w') ->
  Z.of_nat (length (collection w')) = Z.of_nat (length (collection w)) + (m - n)
  /\ n <= m <= n + Z.of_nat (length filings).
Proof.
  revert n w. induction filings as [|f fs IH]; intros n w.
  - cbn. intros [= <- <-]. lia.
  - cbn [insert_all]. unfold bind.
    pose proof (insert_unique_length f w) as Hlen.
    destruct (insert_unique f w) as [[b|e] w1]; [| done].
    intros Hrest. apply IH in Hrest as [Hc Hb].
    cbn [fst snd] in Hlen. cbn [length]. destruct b; lia.
Qed.

(** X14.  When the loop of [main] over the filings ends normally, the count
    it returns is the number of documents it added to the collection, and
    lies between zero and the number of filings. *)
Theorem insert_all_counts_insertions (filings : list loc) (w w' : World) (m : Z) :
  insert_all filings 0 w = (Ok m, w') ->
  Z.of_nat (length (collection w')) = Z.of_nat (length (collection w)) + m
  /\ 0 <= m <= Z.of_nat (length filings).
Proof.
  intros H. apply insert_all_counts in H. lia.
Qed.

Lemma insert_all_counts_insertions_witness :
  Z.of_nat (length (collection
     (insert_all [0%nat; 1%nat] 0
        (world_with (answering 200 "ANNUAL REPORT") [] [acme_record; acme_record])).2))
  = Z.of_nat (length (@nil dict)) + 1
  /\ 0 <= 1 <= Z.of_nat (length [0%nat; 1%nat]).
Proof.
  apply (insert_all_counts_insertions [0%nat; 1%nat]
           (world_with (answering 200 "ANNUAL REPORT") [] [acme_record; acme_record])).
  vm_compute. reflexivity.
Defined.

Lemma pipeline_success (gunzip : list Byte.byte -> list Byte.byte * gzip_outcome)
    (decode_ignore : list Byte.byte -> string) (w w' : World) :
  pipeline gunzip decode_ignore w = (Ok tt, w') ->
  exists filings m w5 w6,
    insert_all filings 0 w5 = (Ok m, w6)
    /\ collection w5 = collection w
    /\ collection w' = collection w6
    /\ log w' = log w6 ++ [LogInserted m].
Proof.
  unfold pipeline. unfold bind at 1.
  unfold get_today_idx_url at 1. unfold bind at 1, date_today, ret at 1.
  cbv zeta. unfold with_TemporaryDirectory.
  set (w1 := set_dirs _ w).
  set (url := BASE_URL +:+ _). set (gz := Py.path_join _ _). set (idx := Py.replace _ _ _).
  unfold bind at 1.
  pose proof (kc_download_gz url gz w1) as C2.
  destruct (download_gz url gz w1) as [[[]|e] w2]; [| done].
  unfold bind at 1.
  pose proof (kc_decompress_gz gunzip gz idx w2) as C3.
  destruct (decompress_gz gunzip gz idx w2) as [[[]|e] w3]; [| done].
  unfold bind at 1.
  pose proof (kc_parse_idx decode_ignore idx w3) as C4.
  destruct (parse_idx decode_ignore idx w3) as [[filings|e] w4]; [| done].
  unfold bind at 1. unfold logger at 1.
  set (w5 := set_log _ w4).
  unfold bind at 1.
  destruct (insert_all filings 0 w5) as [[m|e] w6] eqn:Hall; [| done].
  unfold logger. intros [= <-].
  exists filings, m, w5, w6. split; [done |].
  split; [| done]. subst w5 w1. cbn in *. congruence.
Qed.

(** X16.  Whenever a run of [main] ends on the log line "Inserted m new
    filings", the collection has exactly m documents more than before the
    run. *)
Theorem main_logs_true_count (gunzip : list Byte.byte -> list Byte.byte * gzip_outcome)
    (decode_ignore : list Byte.byte -> string) (w : World) (m : Z) :
  last (log (main gunzip decode_ignore w).2) = Some (LogInserted m) ->
  Z.of_nat (length (collection (main gunzip decode_ignore w).2))
  = Z.of_nat (length (collection w)) + m.
Proof.
  rewrite main_run.
  destruct (pipeline gunzip decode_ignore w) as [[[]|e] w1] eqn:Hp; cbn [snd].
  - apply pipeline_success in Hp as (filings & m' & w5 & w6 & Hall & C5 & C1 & L1).
    rewrite L1, last_snoc. intros [= <-].
    apply insert_all_counts in Hall. rewrite C1, <- C5. lia.
  - cbn [log set_log]. rewrite last_snoc. done.
Qed.

Lemma main_logs_true_count_witness :
  Z.of_nat (length (collection (main stored ascii_text first_run).2))
  = Z.of_nat (length (collection first_run)) + 1.
Proof.
  apply (main_logs_true_count stored ascii_text first_run 1).
  vm_compute. reflexivity.
Defined.

(** X17.  After [main], on every path, the temporary directory of the run
    no longer exists and no file remains directly inside it. *)
Theorem main_removes_tmpdir (gunzip : list Byte.byte -> list Byte.byte * gzip_outcome)
    (decode_ignore : list Byte.byte -> string) (w : World) :
  (tmpname w ∉ dirs (main gunzip decode_ignore w).2)
  /\ (forall p, Py.dirname p = tmpname w ->
                files (main gunzip decode_ignore w).2 !! p = None).
Proof.
  assert (Hc : exists wb, (pipeline gunzip decode_ignore w).2 = cleanup (tmpname w) wb).
  { unfold pipeline. unfold bind at 1.
    unfold get_today_idx_url at 1. unfold bind at 1, date_today, ret at 1.
    cbv zeta. unfold with_TemporaryDirectory.
    destruct (bind _ _ _) as [r wb]. by exists wb. }
  destruct Hc as (wb & Hc).
  assert (Hw : dirs (main gunzip decode_ignore w).2 = dirs (cleanup (tmpname w) wb)
               /\ files (main gunzip decode_ignore w).2 = files (cleanup (tmpname w) wb)).
  { rewrite main_run, <- Hc.
    by destruct (pipeline gunzip decode_ignore w) as [[[]|e] w1]. }
  destruct Hw as [Hd Hf]. rewrite Hd, Hf. cbn. split.
  - intros Hin. apply elem_of_difference in Hin as [_ Hin].
    apply Hin. by apply elem_of_singleton.
  - intros p Hp. apply map_lookup_filter_None. right. intros x _ Hne. by apply Hne.
Qed.

Lemma main_removes_tmpdir_witness :
  files (main stored ascii_text first_run).2 !! "/tmp/tmpab12cd34/master.20240105.idx.gz"
  = None.
Proof.
  apply (proj2 (main_removes_tmpdir stored ascii_text first_run)).
  reflexivity.
Defined.
